(** * Brain-tumor detection front end: the post-processing of [app.py]

    A shallow embedding of the deterministic part of [src/app.py]: the two
    annotation loops ([detect_tumor], [annotate_and_extract]), the tumor
    information lookup and the download file name.

    What is modelled, and how:
    - Python [str] values are [string]s of ASCII characters; [str.lower] and
      [str.title] act on the letters A-Z / a-z.
    - Python [float] is IEEE binary64, through the Standard Library's
      [spec_float] (precision 53, [emax] 1024).  Tensor elements are
      binary32 values, which [float()] widens exactly, so every input is a
      binary64 value.
    - numpy arrays are mutable objects: they live in a heap indexed by
      references, [.copy()] allocates, and the OpenCV drawing calls update
      the array a reference points to.
    - what OpenCV paints for a call is not modelled: an array carries its
      pixel data as loaded together with the list of drawing calls that
      were applied to it, in order.
    - exceptions are values: every operation of the loops yields either a
      result or the exception it raises. *)

From Stdlib Require Import ZArith QArith Lia Ascii.
From Stdlib Require Import Floats.SpecFloat.
From stdpp Require Import gmap strings list fin_maps.

Open Scope Z_scope.

(** ** Exceptions and outcomes *)

Inductive exn : Type :=
| KeyError (k : Z)      (* [model.names[class_id]] with no such key *)
| ValueError            (* [int(nan)] *)
| OverflowError         (* [int(inf)], [int(-inf)] *)
| CvOverflowError       (* an OpenCV coordinate that does not fit a C [int] *)
| DanglingRef.          (* guard of the model: a reference with no object *)

Inductive outcome (A : Type) : Type :=
| Ok (a : A)
| Raise (e : exn).

Arguments Ok {A} a.
Arguments Raise {A} e.

(** ** Python strings *)

Module PyStr.

Definition is_upper (c : ascii) : bool :=
  (65 <=? nat_of_ascii c)%nat && (nat_of_ascii c <=? 90)%nat.

Definition is_lower (c : ascii) : bool :=
  (97 <=? nat_of_ascii c)%nat && (nat_of_ascii c <=? 122)%nat.

Definition to_lower (c : ascii) : ascii :=
  if is_upper c then ascii_of_nat (nat_of_ascii c + 32) else c.

Definition to_upper (c : ascii) : ascii :=
  if is_lower c then ascii_of_nat (nat_of_ascii c - 32) else c.

(** [s.lower()] *)
Fixpoint lower (s : string) : string :=
  match s with
  | EmptyString => EmptyString
  | String c s' => String (to_lower c) (lower s')
  end.

(** [s.title()]: a letter that follows a cased character is lower-cased,
    any other letter is upper-cased; [previous_is_cased] is the flag of
    CPython's loop. *)
Fixpoint title_from (previous_is_cased : bool) (s : string) : string :=
  match s with
  | EmptyString => EmptyString
  | String c s' =>
      if is_lower c then
        String (if previous_is_cased then c else to_upper c) (title_from true s')
      else if is_upper c then
        String (if previous_is_cased then to_lower c else c) (title_from true s')
      else String c (title_from false s')
  end.

Definition title (s : string) : string := title_from false s.

(** Decimal digits. *)
Definition digit (d : Z) : ascii := ascii_of_nat (48 + Z.to_nat d).

Fixpoint decimal_fuel (fuel : nat) (n : Z) : string :=
  match fuel with
  | O => EmptyString
  | S fuel' =>
      if n <? 10 then String (digit n) EmptyString
      else decimal_fuel fuel' (n / 10) +:+ String (digit (n mod 10)) EmptyString
  end.

(** [str(n)] for an integer [n >= 0]; a number has at most [log2 n + 1]
    decimal digits. *)
Definition decimal (n : Z) : string :=
  decimal_fuel (S (Z.to_nat (Z.log2 n))) n.

Fixpoint zeros (n : nat) : string :=
  match n with
  | O => EmptyString
  | S n' => String "0" (zeros n')
  end.

(** The decimal digits of [n], left-padded with zeros to [width]. *)
Definition zpad (width : nat) (n : Z) : string :=
  let d := decimal n in
  zeros (width - String.length d) +:+ d.

Fixpoint take (n : nat) (s : string) : string :=
  match n, s with
  | S n', String c s' => String c (take n' s')
  | _, _ => EmptyString
  end.

Fixpoint drop (n : nat) (s : string) : string :=
  match n, s with
  | S n', String _ s' => drop n' s'
  | _, _ => s
  end.

(** [s.rstrip("0")] *)
Fixpoint rstrip_zeros (s : string) : string :=
  match s with
  | EmptyString => EmptyString
  | String c s' =>
      match rstrip_zeros s' with
      | EmptyString => if Ascii.eqb c "0" then EmptyString else String c EmptyString
      | t => String c t
      end
  end.

End PyStr.

(** ** Python floats (IEEE binary64) *)

Module PyFloat.

Abbreviation float := spec_float.

Definition prec : Z := 53.
Definition emax : Z := 1024.

(** [x * y] *)
Definition mul (x y : float) : float := SFmul prec emax x y.

(** [float(n)] for an integer literal *)
Definition of_Z (n : Z) : float := binary_normalize prec emax n 0 false.

(** The binary64 value nearest to [num / den] (ties to even), for
    [num >= 0] and [den > 0]: what [strtod] returns for a decimal string. *)
Definition nearest (s : bool) (num den : Z) : float :=
  match num with
  | Z0 => S754_zero s
  | _ =>
      let '(q, e, l) := SFdiv_core_binary prec emax num 0 den 0 in
      binary_round_aux prec emax s q e l
  end.

(** [int(x)]: truncation toward zero. *)
Definition py_int (x : float) : outcome Z :=
  match x with
  | S754_nan => Raise ValueError
  | S754_infinity _ => Raise OverflowError
  | S754_zero _ => Ok 0
  | S754_finite s m e =>
      let a := if 0 <=? e then Zpos m * 2 ^ e else Zpos m / 2 ^ (- e) in
      Ok (if s then - a else a)
  end.

(** The integer nearest to [num / den], ties to even ([num >= 0],
    [den > 0]). *)
Definition div_half_even (num den : Z) : Z :=
  let q := num / den in
  let r := num mod den in
  match 2 * r ?= den with
  | Lt => q
  | Gt => q + 1
  | Eq => if Z.even q then q else q + 1
  end.

(** [round(x, 2)]: NaN and the infinities round to themselves; a finite
    [x] is converted to the correctly rounded decimal with two digits
    after the point (ties on the exact binary value go to even), which
    is read back as a float. *)
Definition round2 (x : float) : float :=
  match x with
  | S754_finite s m e =>
      if 0 <=? e then x
      else nearest s (div_half_even (Zpos m * 100) (2 ^ (- e))) 100
  | _ => x
  end.

(** *** [repr(x)]: the shortest decimal string that reads back as [x] *)

(** [10 ^ k] as a fraction multiplying [num / den]. *)
Definition scale10 (k : Z) (num den : Z) : Z * Z :=
  if 0 <=? k then (num * 10 ^ k, den) else (num, den * 10 ^ (- k)).

(** The position of the decimal point of [num / den > 0]: the [p] with
    [10 ^ (p - 1) <= num / den < 10 ^ p]. *)
Fixpoint decpt_up (fuel : nat) (num den : Z) (p : Z) : Z :=
  match fuel with
  | O => p
  | S fuel' => if num <? den then p else decpt_up fuel' num (den * 10) (p + 1)
  end.

Fixpoint decpt_down (fuel : nat) (num den : Z) (p : Z) : Z :=
  match fuel with
  | O => p
  | S fuel' => if den <=? num then p else decpt_down fuel' (num * 10) den (p - 1)
  end.

Definition decpt_of (num den : Z) : Z :=
  if den <=? num then decpt_up 400 num den 0
  else decpt_down 400 (num * 10) den 0.

(** The candidates with [k] significant digits: the two [k]-digit
    decimals around [num / den]; one is kept when it reads back as [x],
    the nearer one when both do. *)
Definition candidate (x : float) (s : bool) (num den p : Z) (k : Z) : option Z :=
  let '(n', d') := scale10 (k - p) num den in
  let lo := n' / d' in
  let hi := lo + 1 in
  let reads d :=
    let '(cn, cd) := scale10 (p - k) d 1 in
    match x, nearest s cn cd with
    | S754_finite s1 m1 e1, S754_finite s2 m2 e2 =>
        Bool.eqb s1 s2 && Pos.eqb m1 m2 && Z.eqb e1 e2
    | _, _ => false
    end in
  match reads lo, reads hi with
  | true, true =>
      match 2 * (n' mod d') ?= d' with
      | Lt => Some lo
      | Gt => Some hi
      | Eq => Some (if Z.even lo then lo else hi)
      end
  | true, false => Some lo
  | false, true => Some hi
  | false, false => None
  end.

Fixpoint shortest (fuel : nat) (x : float) (s : bool) (num den p : Z) (k : Z) : Z * Z :=
  match fuel with
  | O => (0, k)
  | S fuel' =>
      match candidate x s num den p k with
      | Some d => (d, k)
      | None => shortest fuel' x s num den p (k + 1)
      end
  end.

(** Fixed or exponent notation, as [repr] chooses: exponent notation
    when the decimal point falls more than 16 places right of, or 4 or
    more places left of, the first digit. *)
Definition format_r (digits : string) (decpt : Z) : string :=
  let n := Z.of_nat (String.length digits) in
  if (decpt <=? -4) || (16 <? decpt) then
    let e := decpt - 1 in
    PyStr.take 1 digits
    +:+ (if 1 <? n then "." +:+ PyStr.drop 1 digits else "")
    +:+ "e" +:+ (if e <? 0 then "-" else "+") +:+ PyStr.zpad 2 (Z.abs e)
  else if decpt <=? 0 then
    "0." +:+ PyStr.zeros (Z.to_nat (- decpt)) +:+ digits
  else if n <=? decpt then
    digits +:+ PyStr.zeros (Z.to_nat (decpt - n)) +:+ ".0"
  else
    PyStr.take (Z.to_nat decpt) digits +:+ "." +:+ PyStr.drop (Z.to_nat decpt) digits.

(** [repr(x)], which is also [str(x)] and what an f-string inserts. *)
Definition repr (x : float) : string :=
  match x with
  | S754_nan => "nan"
  | S754_infinity s => if s then "-inf" else "inf"
  | S754_zero s => if s then "-0.0" else "0.0"
  | S754_finite s m e =>
      let '(num, den) := if 0 <=? e then (Zpos m * 2 ^ e, 1) else (Zpos m, 2 ^ (- e)) in
      let p := decpt_of num den in
      let '(d, k) := shortest 17 x s num den p 1 in
      let all := PyStr.decimal d in
      let decpt := p + (Z.of_nat (String.length all) - k) in
      (if s then "-" else "") +:+ format_r (PyStr.rstrip_zeros all) decpt
  end.

End PyFloat.

Import PyFloat.

(** ** numpy arrays, the heap and the OpenCV drawing calls *)

Definition rgb : Type := Z * Z * Z.

(** One drawing call, with the arguments [app.py] passes. *)
Inductive cv2_call : Type :=
| Rectangle (pt1 pt2 : Z * Z) (color : rgb) (thickness : Z)
| PutText (text : string) (org : Z * Z) (fontFace : Z) (fontScale : Q)
          (color : rgb) (thickness : Z).

(** An image array: rows of pixels, and the calls drawn over them. *)
Record ndarray : Type := {
  pixels : list (list rgb);
  drawn : list cv2_call
}.

(** [a.shape[:2]]: (height, width). *)
Definition shape (a : ndarray) : Z * Z :=
  (Z.of_nat (length (pixels a)),
   Z.of_nat (length (default [] (head (pixels a))))).

Definition draw (c : cv2_call) (a : ndarray) : ndarray :=
  {| pixels := pixels a; drawn := drawn a ++ [c] |}.

Abbreviation ref := positive.
Abbreviation heap := (gmap positive ndarray).

(** Computations that read and update the heap and may raise. *)
Definition M (A : Type) : Type := heap → heap * outcome A.

#[global] Instance M_ret : MRet M := λ A a h, (h, Ok a).

#[global] Instance M_bind : MBind M := λ A B f m h,
  match m h with
  | (h', Ok a) => f a h'
  | (h', Raise e) => (h', Raise e)
  end.

Definition lift {A : Type} (o : outcome A) : M A := λ h, (h, o).

(** [for x in l: s = body(s, x)] *)
Fixpoint for_each {A S : Type} (l : list A) (body : S → A → M S) (s : S) : M S :=
  match l with
  | [] => mret s
  | x :: l' => s' ← body s x; for_each l' body s'
  end.

(** [a.copy()] *)
Definition np_copy (a : ref) : M ref := λ h,
  match h !! a with
  | Some arr => let r := fresh (dom h) in (<[r := arr]> h, Ok r)
  | None => (h, Raise DanglingRef)
  end.

(** [np.array(image)]: a new array holding the pixels of a PIL image. *)
Definition np_array (image : ndarray) : M ref := λ h,
  let r := fresh (dom h) in (<[r := image]> h, Ok r).

Definition np_read (a : ref) : M ndarray := λ h,
  match h !! a with
  | Some arr => (h, Ok arr)
  | None => (h, Raise DanglingRef)
  end.

(** OpenCV converts every coordinate to a C [int]. *)
Definition c_int (z : Z) : outcome Z :=
  if (- 2 ^ 31 <=? z) && (z <? 2 ^ 31) then Ok z else Raise CvOverflowError.

Definition cv2_draw (img : ref) (c : cv2_call) : M unit := λ h,
  match h !! img with
  | Some arr => (<[img := draw c arr]> h, Ok ())
  | None => (h, Raise DanglingRef)
  end.

(** [cv2.rectangle(img, pt1, pt2, color, thickness)], in place. *)
Definition cv2_rectangle (img : ref) (pt1 pt2 : Z * Z) (color : rgb)
    (thickness : Z) : M unit :=
  _ ← lift (c_int pt1.1); _ ← lift (c_int pt1.2);
  _ ← lift (c_int pt2.1); _ ← lift (c_int pt2.2);
  cv2_draw img (Rectangle pt1 pt2 color thickness).

(** [cv2.putText(img, text, org, fontFace, fontScale, color, thickness)],
    in place. *)
Definition cv2_putText (img : ref) (text : string) (org : Z * Z)
    (fontFace : Z) (fontScale : Q) (color : rgb) (thickness : Z) : M unit :=
  _ ← lift (c_int org.1); _ ← lift (c_int org.2);
  cv2_draw img (PutText text org fontFace fontScale color thickness).

Definition FONT_HERSHEY_SIMPLEX : Z := 0.

(** ** The detection model at its boundary *)

(** [result.boxes]: three parallel sequences. *)
Record Boxes : Type := {
  xyxy : list (float * float * float * float);
  cls : list float;
  conf : list float
}.

Record Result : Type := { boxes : Boxes }.

(** The model: its label table [names] (a dict from class id to name) and
    the call [model(image, conf=threshold)]. *)
Record Model : Type := {
  names : gmap Z string;
  predict : ndarray → float → list Result
}.

(** One detection: what [zip(xyxy, cls, conf)] yields. *)
Definition detection : Type := (float * float * float * float) * float * float.

Definition zip3 {A B C : Type} (la : list A) (lb : list B) (lc : list C)
    : list (A * B * C) :=
  zip (zip la lb) lc.

(** [d[k]] on a dict. *)
Definition getitem (d : gmap Z string) (k : Z) : outcome string :=
  match d !! k with
  | Some v => Ok v
  | None => Raise (KeyError k)
  end.

(** ** The functions of [app.py] *)

(** [detect_tumor(image, model, threshold)] *)
Definition detect_tumor (image : ndarray) (model : Model) (threshold : float)
    : M (ref * list string) :=
  image_np ← np_array image;
  arr ← np_read image_np;
  let results := predict model arr threshold in
  annotated ← np_copy image_np;
  labels ← for_each results (λ labels result,
    for_each (zip3 (xyxy (boxes result)) (cls (boxes result)) (conf (boxes result)))
      (λ labels '(box, cls, conf),
        let '(b1, b2, b3, b4) := box in
        x1 ← lift (py_int b1); y1 ← lift (py_int b2);
        x2 ← lift (py_int b3); y2 ← lift (py_int b4);
        class_id ← lift (py_int cls);
        class_name ← lift (getitem (names model) class_id);
        let confidence := round2 (mul conf (of_Z 100)) in
        let label := class_name +:+ " (" +:+ repr confidence +:+ "%)" in
        let labels := labels ++ [label] in
        _ ← cv2_rectangle annotated (x1, y1) (x2, y2) (255, 0, 0) 2;
        _ ← cv2_putText annotated label (x1, y1 - 10)
              FONT_HERSHEY_SIMPLEX (7 # 10) (0, 255, 255) 2;
        mret labels)
      labels) [];
  mret (annotated, labels).

(** [annotate_and_extract(image_np, results)]; the module-level [model] it
    reads is the first argument here.  The returned [list(found_classes)]
    enumerates the set in Python's hash order, so the model returns the
    set itself. *)
Definition annotate_and_extract (model : Model) (image_np : ref)
    (results : list Result) : M (ref * gset string) :=
  annotated_img ← np_copy image_np;
  found_classes ← for_each results (λ found_classes result,
    for_each (zip3 (xyxy (boxes result)) (cls (boxes result)) (conf (boxes result)))
      (λ found_classes '(box, cls, conf),
        let '(b1, b2, b3, b4) := box in
        x1 ← lift (py_int b1); y1 ← lift (py_int b2);
        x2 ← lift (py_int b3); y2 ← lift (py_int b4);
        class_id ← lift (py_int cls);
        name ← lift (getitem (names model) class_id);
        let class_name := PyStr.lower name in
        let confidence := round2 (mul conf (of_Z 100)) in
        let label := class_name +:+ " (" +:+ repr confidence +:+ "%)" in
        _ ← cv2_rectangle annotated_img (x1, y1) (x2, y2) (255, 0, 0) 2;
        _ ← cv2_putText annotated_img label (x1, y1 - 10)
              FONT_HERSHEY_SIMPLEX (8 # 10) (255, 255, 255) 2;
        mret ({[class_name]} ∪ found_classes))
      found_classes) ∅;
  mret (annotated_img, found_classes).

(** ** The tumor information table and its lookup *)

Definition glioma_info : string :=
  "**Glioma** is a common type of tumor that originates from glial cells in the brain or spine. Gliomas can be low-grade (slow-growing) or high-grade (aggressive). Symptoms depend on the tumor's location and may include headaches, seizures, or changes in personality. Treatment often involves surgery, radiation therapy, and chemotherapy.".

Definition meningioma_info : string :=
  "**Meningioma** is a tumor that arises from the meninges, the membranes that cover the brain and spinal cord. Most meningiomas are benign, but their location in the brain can still cause serious health problems. Common symptoms include headaches, vision problems, or seizures. Treatment may involve surgical removal or observation in non-symptomatic cases.".

Definition pituitary_info : string :=
  "**Pituitary tumors** form in the pituitary gland, which controls several hormone-producing glands in the body. These tumors may cause hormonal imbalances affecting growth, metabolism, and reproductive functions. Treatment may include medication, hormone therapy, or surgery.".

Definition tumor_info : string :=
  "**Brain Tumor** is a general term for abnormal growths of cells in the brain. Tumors can be benign (non-cancerous) or malignant (cancerous). They can affect brain function depending on their size and location. Common treatments include surgery, radiation, and chemotherapy.".

Definition TUMOR_INFO : gmap string string :=
  list_to_map [
    ("glioma", glioma_info);
    ("meningioma", meningioma_info);
    ("pituitary", pituitary_info);
    ("tumor", tumor_info)
  ].

(** The text shown for one found class: the body of the loop over
    [found_classes]. *)
Definition tumor_information (tumor_type : string) : string :=
  match TUMOR_INFO !! tumor_type with
  | Some text => text
  | None =>
      "**" +:+ PyStr.title tumor_type +:+ "**: Additional information will be added soon."
  end.

(** ** The download file name *)

Record datetime : Type := {
  year : Z; month : Z; day : Z;
  hour : Z; minute : Z; second : Z
}.

(** One [strftime] directive.  [%Y] is the year in decimal, the other
    directives used are zero-padded to two digits. *)
Definition directive (d : ascii) (t : datetime) : string :=
  if Ascii.eqb d "Y" then PyStr.decimal (year t)
  else if Ascii.eqb d "m" then PyStr.zpad 2 (month t)
  else if Ascii.eqb d "d" then PyStr.zpad 2 (day t)
  else if Ascii.eqb d "H" then PyStr.zpad 2 (hour t)
  else if Ascii.eqb d "M" then PyStr.zpad 2 (minute t)
  else if Ascii.eqb d "S" then PyStr.zpad 2 (second t)
  else String "%" (String d EmptyString).

(** [t.strftime(fmt)] *)
Fixpoint strftime (fmt : string) (t : datetime) : string :=
  match fmt with
  | EmptyString => EmptyString
  | String c fmt' =>
      if Ascii.eqb c "%" then
        match fmt' with
        | String d fmt'' => directive d t +:+ strftime fmt'' t
        | EmptyString => String c EmptyString
        end
      else String c (strftime fmt' t)
  end.

(** [f"tumor_result_{datetime.now().strftime('%Y%m%d_%H%M%S')}.jpg"], with
    the clock reading [now] as argument. *)
Definition download_file_name (now : datetime) : string :=
  "tumor_result_" +:+ strftime "%Y%m%d_%H%M%S" now +:+ ".jpg".

(** ** Vocabulary of the statements *)

#[global] Instance outcome_ret : MRet outcome := λ A a, Ok a.

#[global] Instance outcome_bind : MBind outcome := λ A B f o,
  match o with
  | Ok a => f a
  | Raise e => Raise e
  end.

(** The detections of one result, and of a whole [results] sequence, in
    the order the loops visit them. *)
Definition detections (result : Result) : list detection :=
  zip3 (xyxy (boxes result)) (cls (boxes result)) (conf (boxes result)).

Definition all_detections (results : list Result) : list detection :=
  concat (detections <$> results).

(** What a loop body gets out of one detection before it draws: the
    integer corners, the name the label table gives, and the confidence
    as the model reports it. *)
Record reading : Type := {
  corner1 : Z * Z;
  corner2 : Z * Z;
  raw_name : string;
  score : float
}.

(** The conversions of one loop iteration, in the order the body performs
    them; the exception is the one the iteration raises. *)
Definition read (model : Model) (d : detection) : outcome reading :=
  let '(b1, b2, b3, b4, c, p) := d in
  x1 ← py_int b1; y1 ← py_int b2; x2 ← py_int b3; y2 ← py_int b4;
  class_id ← py_int c;
  name ← getitem (names model) class_id;
  _ ← c_int x1; _ ← c_int y1; _ ← c_int x2; _ ← c_int y2;
  _ ← c_int x1; _ ← c_int (y1 - 10);
  mret {| corner1 := (x1, y1); corner2 := (x2, y2); raw_name := name; score := p |}.

Fixpoint reads (model : Model) (ds : list detection) : outcome (list reading) :=
  match ds with
  | [] => Ok []
  | d :: ds' => r ← read model d; rs ← reads model ds'; mret (r :: rs)
  end.

(** The category of a reading: the lower-cased name. *)
Definition category (r : reading) : string := PyStr.lower (raw_name r).

(** The confidence as the labels show it. *)
Definition percent (r : reading) : string :=
  repr (round2 (mul (score r) (of_Z 100))).

Definition label_suffix (r : reading) : string := " (" +:+ percent r +:+ "%)".

(** The two drawing calls of one iteration of [annotate_and_extract] and
    of [detect_tumor]. *)
Definition annotate_calls (r : reading) : list cv2_call :=
  [ Rectangle (corner1 r) (corner2 r) (255, 0, 0) 2;
    PutText (category r +:+ label_suffix r)
            ((corner1 r).1, (corner1 r).2 - 10)
            FONT_HERSHEY_SIMPLEX (8 # 10) (255, 255, 255) 2 ].

Definition detect_calls (r : reading) : list cv2_call :=
  [ Rectangle (corner1 r) (corner2 r) (255, 0, 0) 2;
    PutText (raw_name r +:+ label_suffix r)
            ((corner1 r).1, (corner1 r).2 - 10)
            FONT_HERSHEY_SIMPLEX (7 # 10) (0, 255, 255) 2 ].

Definition draws (cs : list cv2_call) (a : ndarray) : ndarray :=
  {| pixels := pixels a; drawn := drawn a ++ cs |}.

(** The label texts among a list of calls. *)
Definition texts (cs : list cv2_call) : list string :=
  omap (λ c, match c with
             | PutText t _ _ _ _ _ => Some t
             | Rectangle _ _ _ _ => None
             end) cs.

(** A box that shares no pixel with the image. *)
Definition fully_outside (a : ndarray) (r : reading) : bool :=
  ((corner2 r).1 <=? 0) || ((corner2 r).2 <=? 0)
  || ((shape a).2 <=? (corner1 r).1) || ((shape a).1 <=? (corner1 r).2).

(** What a call of [annotate_and_extract] hands back. *)
Definition categories_found (res : heap * outcome (ref * gset string))
    : option (gset string) :=
  match res.2 with
  | Ok (_, found) => Some found
  | Raise _ => None
  end.

Definition annotated_image (res : heap * outcome (ref * gset string))
    : option ndarray :=
  match res.2 with
  | Ok (out, _) => res.1 !! out
  | Raise _ => None
  end.

(** Per category, the largest confidence among its detections, the first
    one seen winning a tie: the figure the specification attaches to a
    category.  No function of [app.py] computes it. *)
Definition best_confidence (c : string) (rds : list reading) : option float :=
  foldl (λ best r,
           if String.eqb (category r) c then
             match best with
             | None => Some (score r)
             | Some b => if SFltb b (score r) then Some (score r) else best
             end
           else best)
        None rds.

(** Clock readings of [datetime.now()] on which [%Y] prints four digits. *)
Definition valid_datetime (t : datetime) : Prop :=
  1000 <= year t <= 9999 ∧ 1 <= month t <= 12 ∧ 1 <= day t <= 31 ∧
  0 <= hour t <= 23 ∧ 0 <= minute t <= 59 ∧ 0 <= second t <= 59.

Definition two_digits (n : Z) : string :=
  String (PyStr.digit (n / 10)) (String (PyStr.digit (n mod 10)) EmptyString).

Definition four_digits (n : Z) : string :=
  two_digits (n / 100) +:+ two_digits (n mod 100).

(** ** Sample data *)

Module Sample.

(** The binary64 values of the literals [0.8734], [0.9], [0.5]. *)
Definition c_8734 : float := nearest false 8734 10000.
Definition c_90 : float := nearest false 9 10.
Definition c_50 : float := nearest false 1 2.

Definition det (x1 y1 x2 y2 : Z) (class_id : Z) (p : float) : detection :=
  (of_Z x1, of_Z y1, of_Z x2, of_Z y2, of_Z class_id, p).

(** One result holding the given detections. *)
Definition result_of (ds : list detection) : Result :=
  {| boxes := {| xyxy := (λ d, d.1.1) <$> ds;
                 cls := (λ d, d.1.2) <$> ds;
                 conf := (λ d, d.2) <$> ds |} |}.

Definition table : gmap Z string :=
  list_to_map [ (0, "Glioma"); (1, "glioma "); (2, "GLIOMA");
                (3, "meningioma"); (4, "glioma") ].

Definition model : Model := {| names := table; predict := λ _ _, [] |}.

(** A model that detects one meningioma whatever the image. *)
Definition model_one : Model :=
  {| names := table;
     predict := λ _ _, [result_of [det 10 20 60 70 3 c_8734]] |}.

(** A black image of 100 by 100 pixels, stored at reference 1. *)
Definition image : ndarray :=
  {| pixels := replicate 100 (replicate 100 (0, 0, 0)); drawn := [] |}.

Definition h0 : gmap positive ndarray := {[ 1%positive := image ]}.

Definition now : datetime :=
  {| year := 2024; month := 3; day := 7; hour := 9; minute := 5; second := 0 |}.

(** A box below the image, fully outside it, and what the loop reads
    from it. *)
Definition outside_det : detection := det 10 105 60 150 0 c_90.

Definition outside_reading : reading :=
  {| corner1 := (10, 105); corner2 := (60, 150);
     raw_name := "Glioma"; score := c_90 |}.

(** Three detections named "Glioma", "glioma " and "GLIOMA". *)
Definition three_spellings : list Result :=
  [result_of [ det 10 20 60 70 0 c_90;
               det 10 20 60 70 1 c_50;
               det 10 20 60 70 2 c_8734 ]].

(** Three detections named "Glioma", "glioma" and "GLIOMA". *)
Definition three_cases : list Result :=
  [result_of [ det 10 20 60 70 0 c_90;
               det 10 20 60 70 4 c_50;
               det 10 20 60 70 2 c_8734 ]].

(** The same two detections in two orders. *)
Definition two_found : list Result :=
  [result_of [ det 10 20 60 70 0 c_90; det 30 40 80 90 3 c_8734 ]].

Definition two_found_swapped : list Result :=
  [result_of [ det 30 40 80 90 3 c_8734 ];
   result_of [ det 10 20 60 70 0 c_90 ]].

(** One glioma detected with confidence [p]. *)
Definition glioma_at (p : float) : list Result :=
  [result_of [det 10 20 60 70 0 p]].

(** Class id 7 is not in the table. *)
Definition unknown_then_known : list Result :=
  [result_of [ det 10 20 60 70 7 c_90; det 30 40 80 90 3 c_8734 ]].

Definition known_only : list Result :=
  [result_of [ det 30 40 80 90 3 c_8734 ]].

End Sample.

(** ** The percentage a label shows, written out *)

(** The decimal numeral of [n / 100] for [0 <= n <= 10000], as a label
    shows it: the whole part, a point, and one decimal digit when the
    second would be zero, two otherwise ("90.0", "4.5", "87.34"). *)
Definition decimal_digit (d : Z) : ascii :=
  match d with
  | 0 => "0" | 1 => "1" | 2 => "2" | 3 => "3" | 4 => "4"
  | 5 => "5" | 6 => "6" | 7 => "7" | 8 => "8" | _ => "9"
  end%char.

Definition whole_part (k : Z) : string :=
  if k <? 10 then String (decimal_digit k) EmptyString
  else if k <? 100 then
    String (decimal_digit (k / 10)) (String (decimal_digit (k mod 10)) EmptyString)
  else
    String (decimal_digit (k / 100))
      (String (decimal_digit (k / 10 mod 10))
         (String (decimal_digit (k mod 10)) EmptyString)).

Definition hundredths (n : Z) : string :=
  whole_part (n / 100) +:+ "."
  +:+ (if n mod 10 =? 0 then String (decimal_digit (n / 10 mod 10)) EmptyString
       else String (decimal_digit (n / 10 mod 10))
              (String (decimal_digit (n mod 10)) EmptyString)).

(** Whether [repr] prints the float read from [n / 100] as that numeral. *)
Definition prints_hundredths (n : nat) : bool :=
  String.eqb (repr (nearest false (Z.of_nat n) 100)) (hundredths (Z.of_nat n)).

(** Detections with the confidences 0.8734, 0.12345, 0.00125 and 0.9. *)
Module SampleLabels.

Definition c_12345 : float := nearest false 12345 100000.
Definition c_00125 : float := nearest false 125 100000.

Definition results : list Result :=
  [Sample.result_of [ Sample.det 10 20 60 70 3 Sample.c_8734;
                      Sample.det 10 20 60 70 0 c_12345;
                      Sample.det 10 20 60 70 0 c_00125;
                      Sample.det 10 20 60 70 0 Sample.c_90 ]].

Definition readings : list reading :=
  [ {| corner1 := (10, 20); corner2 := (60, 70);
       raw_name := "meningioma"; score := Sample.c_8734 |};
    {| corner1 := (10, 20); corner2 := (60, 70);
       raw_name := "Glioma"; score := c_12345 |};
    {| corner1 := (10, 20); corner2 := (60, 70);
       raw_name := "Glioma"; score := c_00125 |};
    {| corner1 := (10, 20); corner2 := (60, 70);
       raw_name := "Glioma"; score := Sample.c_90 |} ].

End SampleLabels.

(** ** The upload section of the page *)

(** A call that puts an element on the page, with the arguments [app.py]
    passes; an image is recorded with the column it is shown in and with
    its content when shown. *)
Inductive st_call : Type :=
| StSubheader (body : string)
| StColumns (spec : list Z)
| StImage (column : Z) (image : ndarray) (caption : string)
          (use_container_width : bool)
| StMarkdown (body : string)
| StDownloadButton (label : string) (data : list Z) (file_name : string)
                   (mime : string)
| StInfo (body : string).

(** What can stop the script: an exception of the annotation code, a
    failure of the JPEG encoder, or Streamlit refusing a widget it takes
    for one already on the page. *)
Inductive script_exn : Type :=
| PyExn (e : exn)
| CvError
| DuplicateElementId.

Inductive result (A : Type) : Type :=
| Done (a : A)
| Failed (e : script_exn).

Arguments Done {A} a.
Arguments Failed {A} e.

(** What the page takes from outside [app.py]: the clock (the reading
    the n-th call of [datetime.now()] returns), the JPEG encoder
    ([None] when it raises), the order in which [list(s)] enumerates a
    set, and Streamlit's test whether a new widget is the same element
    as one shown before. *)
Record Env : Type := {
  clock : nat → datetime;
  imencode_jpg : ndarray → option (list Z);
  listing : gset string → list string;
  same_element : st_call → st_call → bool
}.

(** The state of a script run: the arrays, the elements put on the page
    so far, and how often the clock was read. *)
Record world : Type := {
  arrays : gmap positive ndarray;
  shown : list st_call;
  clock_reads : nat
}.

Definition Script (A : Type) : Type := world → world * result A.

#[global] Instance Script_ret : MRet Script := λ A a w, (w, Done a).

#[global] Instance Script_bind : MBind Script := λ A B f m w,
  match m w with
  | (w', Done a) => f a w'
  | (w', Failed e) => (w', Failed e)
  end.

(** A heap computation run inside the script. *)
Definition in_heap {A : Type} (m : M A) : Script A := λ w,
  let '(h, o) := m (arrays w) in
  ({| arrays := h; shown := shown w; clock_reads := clock_reads w |},
   match o with
   | Ok a => Done a
   | Raise e => Failed (PyExn e)
   end).

(** [for x in l: body(x)] *)
Fixpoint for_ {A : Type} (l : list A) (body : A → Script unit) : Script unit :=
  match l with
  | [] => mret ()
  | x :: l' => _ ← body x; for_ l' body
  end.

(** A Streamlit call that only adds an element. *)
Definition st (c : st_call) : Script unit := λ w,
  ({| arrays := arrays w; shown := shown w ++ [c]; clock_reads := clock_reads w |},
   Done ()).

(** [st.download_button(label, data, file_name, mime)]: a widget, refused
    when Streamlit finds the same element on the page already. *)
Definition st_download_button (env : Env) (label : string) (data : list Z)
    (file_name mime : string) : Script unit := λ w,
  let button := StDownloadButton label data file_name mime in
  if existsb (same_element env button) (shown w) then (w, Failed DuplicateElementId)
  else st button w.

(** [datetime.now()] *)
Definition datetime_now (env : Env) : Script datetime := λ w,
  ({| arrays := arrays w; shown := shown w; clock_reads := S (clock_reads w) |},
   Done (clock env (clock_reads w))).

Definition fail {A : Type} (e : script_exn) : Script A := λ w, (w, Failed e).

(** [cv2.imencode(".jpg", a)[1].tobytes()] *)
Definition cv2_imencode (env : Env) (a : ref) : Script (list Z) :=
  arr ← in_heap (np_read a);
  match imencode_jpg env arr return Script (list Z) with
  | Some data => mret data
  | None => fail CvError
  end.

(** The upload section: [uploaded_files] holds the uploads as
    [Image.open(f).convert('RGB')] decodes them; [model] and [threshold]
    are the module-level model and the slider value. *)
Definition upload_section (env : Env) (model : Model) (threshold : float)
    (uploaded_files : list ndarray) : Script unit :=
  match uploaded_files with
  | [] => st (StInfo "Upload one or more MRI images to begin detection.")
  | _ =>
      _ ← st (StSubheader "Results");
      for_ uploaded_files (λ image,
        img_np ← in_heap (np_array image);
        arr ← in_heap (np_read img_np);
        let results := predict model arr threshold in
        '(annotated_img, found) ← in_heap (annotate_and_extract model img_np results);
        let found_classes := listing env found in
        _ ← st (StColumns [1; 1]);
        _ ← st (StImage 1 image "Original MRI" true);
        annotated ← in_heap (np_read annotated_img);
        _ ← st (StImage 2 annotated "Detected Tumor(s)" true);
        _ ← match found_classes with
            | [] => mret ()
            | _ =>
                _ ← st (StMarkdown "### Tumor Information");
                for_ found_classes (λ tumor_type,
                  st (StMarkdown (tumor_information tumor_type)))
            end;
        data ← cv2_imencode env annotated_img;
        t ← datetime_now env;
        st_download_button env "📥 Download Annotated Image" data
          (download_file_name t) "image/jpeg")
  end.

(** ** Vocabulary of the statements about the page *)

(** The file names of the download buttons, the images with their column
    and caption, and the Markdown bodies among a list of elements. *)
Definition download_names (l : list st_call) : list string :=
  omap (λ c, match c with
             | StDownloadButton _ _ file_name _ => Some file_name
             | _ => None
             end) l.



(** Streamlit takes a new download button for an element already on the
    page only if that element is a download button with the same file
    name. *)
Definition clash_needs_same_name (env : Env) : Prop :=
  ∀ b c, same_element env b c = true →
    ∃ l d f m l' d' m',
      b = StDownloadButton l d f m ∧ c = StDownloadButton l' d' f m'.


(** An upload on which nothing raises: its detections convert to [rds]
    and the annotated image encodes to [data]. *)
Definition processes (env : Env) (model : Model) (threshold : float)
    (image : ndarray) (rds : list reading) (data : list Z) : Prop :=
  reads model (all_detections (predict model image threshold)) = Ok rds
  ∧ imencode_jpg env (draws (concat (annotate_calls <$> rds)) image) = Some data.

(** The names of the download buttons of [n] uploads, the clock having
    been read [k] times before. *)
Definition names_from (env : Env) (k n : nat) : list string :=
  (λ i, download_file_name (clock env (k + i))) <$> seq 0 n.

(** The elements one upload puts on the page when nothing raises. *)
Definition info_block (env : Env) (found : gset string) : list st_call :=
  match listing env found with
  | [] => []
  | l => StMarkdown "### Tumor Information"
         :: ((λ tumor_type, StMarkdown (tumor_information tumor_type)) <$> l)
  end.

Definition file_elements (env : Env) (image : ndarray) (rds : list reading)
    (data : list Z) (t : datetime) : list st_call :=
  [ StColumns [1; 1];
    StImage 1 image "Original MRI" true;
    StImage 2 (draws (concat (annotate_calls <$> rds)) image) "Detected Tumor(s)" true ]
  ++ info_block env (list_to_set (category <$> rds))
  ++ [ StDownloadButton "📥 Download Annotated Image" data
         (download_file_name t) "image/jpeg" ].

(** The readings and the encoded bytes of an upload, when it has them. *)
Definition readings_of (model : Model) (threshold : float) (image : ndarray)
    : list reading :=
  match reads model (all_detections (predict model image threshold)) with
  | Ok rds => rds
  | Raise _ => []
  end.

Definition annotated_of (model : Model) (threshold : float) (image : ndarray)
    : ndarray :=
  draws (concat (annotate_calls <$> readings_of model threshold image)) image.

(** The state after one upload was processed without raising. *)
Definition after_file (env : Env) (model : Model) (threshold : float)
    (w : world) (image : ndarray) : world :=
  let img_np := fresh (dom (arrays w)) in
  let h1 := <[img_np := image]> (arrays w) in
  {| arrays := <[fresh (dom h1) := annotated_of model threshold image]> h1;
     shown := shown w
              ++ file_elements env image (readings_of model threshold image)
                   (default [] (imencode_jpg env (annotated_of model threshold image)))
                   (clock env (clock_reads w));
     clock_reads := S (clock_reads w) |}.

(** What has to hold before an upload for its iteration not to raise. *)
Definition runs_clean (env : Env) (model : Model) (threshold : float)
    (w : world) (image : ndarray) : Prop :=
  (∃ rds data, processes env model threshold image rds data)
  ∧ download_file_name (clock env (clock_reads w)) ∉ download_names (shown w).

(** The state once the section has put its heading on the page. *)
Definition with_results_header (w : world) : world :=
  {| arrays := arrays w; shown := shown w ++ [StSubheader "Results"];
     clock_reads := clock_reads w |}.


(** A state reached from another by adding only. *)
Definition grows (w w' : world) : Prop :=
  arrays w ⊆ arrays w'
  ∧ shown w `prefix_of` shown w'
  ∧ (clock_reads w ≤ clock_reads w')%nat.

(** ** Sample data for the page *)

Module SamplePage.

(** A clock that advances one second per reading. *)
Definition ticking (n : nat) : datetime :=
  {| year := 2024; month := 3; day := 7;
     hour := 9; minute := 5; second := Z.of_nat n `mod` 60 |}.

(** An encoder standing for JPEG: it returns the number of calls drawn. *)
Definition env : Env :=
  {| clock := ticking;
     imencode_jpg := λ a, Some [Z.of_nat (length (drawn a))];
     listing := elements;
     same_element := λ b c,
       match b, c with
       | StDownloadButton _ _ f _, StDownloadButton _ _ f' _ => String.eqb f f'
       | _, _ => false
       end |}.

(** Two image sizes; the model finds a glioma and a meningioma in the
    small one, nothing in the wide one, and a class it has no name for
    in any other. *)
Definition small : ndarray :=
  {| pixels := replicate 2 (replicate 3 (0, 0, 0)); drawn := [] |}.

Definition wide : ndarray :=
  {| pixels := replicate 2 (replicate 5 (0, 0, 0)); drawn := [] |}.

Definition model : Model :=
  {| names := Sample.table;
     predict := λ a _,
       if decide (pixels a = pixels small) then Sample.two_found
       else if decide (pixels a = pixels wide) then []
       else Sample.unknown_then_known |}.

Definition w0 : world := {| arrays := ∅; shown := []; clock_reads := 0 |}.

End SamplePage.

(** * Properties *)

(** ** Drawing calls and loops *)

Lemma draws_nil a : draws [] a = a.
Proof. destruct a as [px dr]. unfold draws; simpl. by rewrite app_nil_r. Qed.

Lemma draws_draws cs1 cs2 a : draws cs2 (draws cs1 a) = draws (cs1 ++ cs2) a.
Proof. unfold draws; simpl. by rewrite app_assoc. Qed.

Lemma draw_draws c a : draw c a = draws [c] a.
Proof. reflexivity. Qed.

Lemma for_each_app {A S : Type} (body : S → A → M S) (l1 l2 : list A) s h :
  for_each (l1 ++ l2) body s h = (s' ← for_each l1 body s; for_each l2 body s') h.
Proof.
  revert s h. induction l1 as [|x l1 IH]; intros s h; [reflexivity|].
  simpl. unfold mbind, M_bind. destruct (body s x h) as [h1 [s1|e]]; [|reflexivity].
  apply IH.
Qed.

Lemma for_each_concat {A B S : Type} (f : B → list A) (body : S → A → M S) (l : list B) s h :
  for_each l (λ s x, for_each (f x) body s) s h = for_each (concat (f <$> l)) body s h.
Proof.
  revert s h. induction l as [|x l IH]; intros s h; [reflexivity|].
  simpl. rewrite for_each_app. unfold mbind, M_bind.
  destruct (for_each (f x) body s h) as [h1 [s1|e]]; [|reflexivity].
  apply IH.
Qed.

Section Loop.
Context {S : Type} (model : Model) (ann : ref) (body : S → detection → M S).
Context (calls : reading → list cv2_call) (upd : S → reading → S).

Hypothesis body_ok : ∀ s d h arr r,
  h !! ann = Some arr → read model d = Ok r →
  body s d h = (<[ann := draws (calls r) arr]> h, Ok (upd s r)).

Hypothesis body_raise : ∀ s d h arr e,
  h !! ann = Some arr → read model d = Raise e →
  ∃ arr', body s d h = (<[ann := arr']> h, Raise e).

Lemma loop_ok ds : ∀ rds s (h : gmap positive ndarray) arr,
  h !! ann = Some arr → reads model ds = Ok rds →
  for_each ds body s h
  = (<[ann := draws (concat (calls <$> rds)) arr]> h, Ok (foldl upd s rds)).
Proof.
  induction ds as [|d ds IH]; intros rds s h arr Hann Hr; simpl in Hr.
  - inversion Hr; subst; simpl. rewrite draws_nil, insert_id; done.
  - destruct (read model d) as [r|e] eqn:Hd; [|discriminate].
    destruct (reads model ds) as [rds'|e] eqn:Hds; [|discriminate].
    inversion Hr; subst; clear Hr. simpl.
    unfold mbind, M_bind. rewrite (body_ok s d h arr r Hann Hd).
    rewrite (IH rds' (upd s r) _ (draws (calls r) arr)); [|by rewrite lookup_insert_eq|done].
    by rewrite insert_insert_eq, draws_draws.
Qed.

Lemma loop_raise ds : ∀ e s (h : gmap positive ndarray) arr,
  h !! ann = Some arr → reads model ds = Raise e →
  ∃ arr', for_each ds body s h = (<[ann := arr']> h, Raise e).
Proof.
  induction ds as [|d ds IH]; intros e s h arr Hann Hr; simpl in Hr; [discriminate|].
  destruct (read model d) as [r|e'] eqn:Hd.
  - destruct (reads model ds) as [rds'|e''] eqn:Hds; [discriminate|].
    inversion Hr; subst; clear Hr. simpl.
    unfold mbind, M_bind. rewrite (body_ok s d h arr r Hann Hd).
    destruct (IH e (upd s r) (<[ann:=draws (calls r) arr]> h) (draws (calls r) arr)) as [arr' ->];
      [by rewrite lookup_insert_eq|done|].
    exists arr'. by rewrite insert_insert_eq.
  - inversion Hr; subst; clear Hr. simpl. unfold mbind, M_bind.
    destruct (body_raise s d h arr e Hann Hd) as [arr' ->]. by exists arr'.
Qed.
End Loop.

(** ** The loop bodies against [read] *)

Lemma cv2_draw_at (h : gmap positive ndarray) img arr c :
  h !! img = Some arr → cv2_draw img c h = (<[img := draws [c] arr]> h, Ok ()).
Proof. intros H. unfold cv2_draw. by rewrite H. Qed.

(** Runs the conversions of a loop body and of [read] side by side. *)
Ltac step_body H :=
  match type of H with
  | context [py_int ?b] => destruct (py_int b) eqn:?
  | context [getitem ?t ?k] => destruct (getitem t k) eqn:?
  | context [c_int ?z] => destruct (c_int z) eqn:?
  end; simpl in H; try discriminate.

Ltac open_body d Hr :=
  destruct d as [[[[[? ?] ?] ?] ?] ?];
  unfold read in Hr; simpl in Hr;
  unfold mbind, M_bind, lift, cv2_rectangle, cv2_putText; simpl.

Ltac body_ok_tac d Hann Hr :=
  open_body d Hr; repeat step_body Hr;
  inversion Hr; subst; clear Hr;
  unfold mbind, M_bind, lift; simpl;
  erewrite cv2_draw_at by exact Hann;
  erewrite cv2_draw_at by apply lookup_insert_eq;
  rewrite insert_insert_eq, draws_draws; reflexivity.

Ltac body_raise_tac d Hann Hr arr :=
  open_body d Hr; repeat step_body Hr;
  inversion Hr; subst; clear Hr;
  unfold mbind, M_bind, lift; simpl;
  try (eexists arr; rewrite insert_id by exact Hann; reflexivity);
  erewrite cv2_draw_at by exact Hann;
  eexists; reflexivity.

Lemma found_classes_fold rds (s : gset string) :
  foldl (λ s r, {[category r]} ∪ s) s rds = list_to_set (category <$> rds) ∪ s.
Proof.
  revert s. induction rds as [|r rds IH]; intros s; simpl.
  - by rewrite (left_id_L ∅ (∪)).
  - rewrite IH, (assoc_L (∪)). f_equal. apply (comm_L (∪)).
Qed.

Lemma np_copy_at (h : gmap positive ndarray) img arr :
  h !! img = Some arr → np_copy img h = (<[fresh (dom h) := arr]> h, Ok (fresh (dom h))).
Proof. intros H. unfold np_copy. by rewrite H. Qed.

Lemma annotate_ok model img rs (h : gmap positive ndarray) arr rds :
  h !! img = Some arr → reads model (all_detections rs) = Ok rds →
  annotate_and_extract model img rs h
  = (<[fresh (dom h) := draws (concat (annotate_calls <$> rds)) arr]> h,
     Ok (fresh (dom h), list_to_set (category <$> rds))).
Proof.
  intros Himg Hr. unfold annotate_and_extract.
  unfold mbind at 1, M_bind at 1. rewrite (np_copy_at h img arr Himg).
  unfold mbind at 1, M_bind at 1.
  rewrite (for_each_concat detections).
  erewrite (loop_ok model (fresh (dom h)) _ annotate_calls (λ (s : gset string) r, {[category r]} ∪ s));
    [ | | apply lookup_insert_eq | exact Hr ].
  - rewrite insert_insert_eq, found_classes_fold. unfold mret, M_ret.
    by rewrite (right_id_L ∅ (∪)).
  - intros s d h1 arr1 r Hann Hd. body_ok_tac d Hann Hd.
Qed.

Lemma annotate_raise model img rs (h : gmap positive ndarray) arr e :
  h !! img = Some arr → reads model (all_detections rs) = Raise e →
  ∃ arr', annotate_and_extract model img rs h = (<[fresh (dom h) := arr']> h, Raise e).
Proof.
  intros Himg Hr. unfold annotate_and_extract.
  unfold mbind at 1, M_bind at 1. rewrite (np_copy_at h img arr Himg).
  unfold mbind at 1, M_bind at 1.
  rewrite (for_each_concat detections).
  match goal with
  | |- context [for_each _ ?body ?s0 ?h1] =>
      destruct (λ Hok Hraise, loop_raise model (fresh (dom h)) body annotate_calls
                  (λ (s : gset string) r, {[category r]} ∪ s) Hok Hraise
                  (concat (detections <$> rs)) e s0 h1 arr)
        as [arr' ->]; [ | | apply lookup_insert_eq | exact Hr | ]
  end.
  - intros s d h1 arr1 r Hann Hd. body_ok_tac d Hann Hd.
  - intros s d h1 arr1 e1 Hann Hd. body_raise_tac d Hann Hd arr1.
  - exists arr'. by rewrite insert_insert_eq.
Qed.

Lemma annotate_dangling model img rs (h : gmap positive ndarray) :
  h !! img = None → annotate_and_extract model img rs h = (h, Raise DanglingRef).
Proof.
  intros Himg. unfold annotate_and_extract, mbind, M_bind at 1, np_copy. by rewrite Himg.
Qed.

Lemma labels_fold rds (l : list string) :
  foldl (λ l r, l ++ [raw_name r +:+ label_suffix r]) l rds
  = l ++ ((λ r, raw_name r +:+ label_suffix r) <$> rds).
Proof.
  revert l. induction rds as [|r rds IH]; intros l; simpl.
  - by rewrite app_nil_r.
  - by rewrite IH, <- app_assoc.
Qed.

Lemma detect_ok image model threshold (h : gmap positive ndarray) rds :
  reads model (all_detections (predict model image threshold)) = Ok rds →
  let image_np := fresh (dom h) in
  let h1 := <[image_np := image]> h in
  let annotated := fresh (dom h1) in
  detect_tumor image model threshold h
  = (<[annotated := draws (concat (detect_calls <$> rds)) image]> h1,
     Ok (annotated, (λ r, raw_name r +:+ label_suffix r) <$> rds)).
Proof.
  intros Hr image_np h1 annotated. subst image_np h1 annotated. unfold detect_tumor.
  unfold mbind at 1, M_bind at 1, np_array.
  unfold mbind at 1, M_bind at 1, np_read. rewrite lookup_insert_eq.
  unfold mbind at 1, M_bind at 1.
  rewrite (np_copy_at _ _ image) by apply lookup_insert_eq.
  unfold mbind at 1, M_bind at 1.
  rewrite (for_each_concat detections).
  erewrite (loop_ok model _ _ detect_calls (λ (l : list string) r, l ++ [raw_name r +:+ label_suffix r]));
    [ | | apply lookup_insert_eq | exact Hr ].
  - by rewrite insert_insert_eq, labels_fold.
  - intros s d h2 arr1 r Hann Hd. body_ok_tac d Hann Hd.
Qed.

(** ** Rounding to two decimals *)

(** [div_half_even] is off by at most half a unit: the two-decimal figure
    [round2] reads back differs from the exact value by at most 0.005. *)
Lemma div_half_even_nearest num den :
  0 <= num → 0 < den → 2 * Z.abs (div_half_even num den * den - num) <= den.
Proof.
  intros Hnum Hden. unfold div_half_even.
  pose proof (Z.div_mod num den ltac:(lia)) as Hdm.
  pose proof (Z.mod_pos_bound num den Hden) as Hr.
  set (q := num / den) in *. set (r := num mod den) in *.
  destruct (Z.compare_spec (2 * r) den) as [Heq|Hlt|Hgt].
  - destruct (Z.even q); nia.
  - nia.
  - nia.
Qed.

(** ** Reading a whole sequence *)

Lemma reads_ok_iff model ds rds :
  reads model ds = Ok rds ↔ Forall2 (λ d r, read model d = Ok r) ds rds.
Proof.
  revert rds. induction ds as [|d ds IH]; intros rds; simpl.
  - split; [intros [= <-]; constructor | by inversion 1].
  - destruct (read model d) as [r|e] eqn:Hd; simpl.
    + destruct (reads model ds) as [rds'|e] eqn:Hds; simpl.
      * split.
        -- unfold mret, outcome_ret. intros [= <-]. constructor; [done | by apply IH].
        -- inversion 1 as [|? r' ? rds'' Hr' Hrest]; subst.
           apply IH in Hrest. unfold mret, outcome_ret. congruence.
      * split; [done|]. inversion 1 as [|? r' ? rds'' Hr' Hrest]; subst.
        apply IH in Hrest. discriminate.
    + split; [done|]. inversion 1; congruence.
Qed.

Lemma reads_raise model ds e :
  reads model ds = Raise e → ∃ d, d ∈ ds ∧ read model d = Raise e.
Proof.
  induction ds as [|d ds IH]; simpl; [done|].
  destruct (read model d) as [r|e'] eqn:Hd; simpl.
  - destruct (reads model ds) as [rds'|e''] eqn:Hds; simpl; [done|].
    intros [= ->]. destruct IH as (d' & Hin & Hd'); [done|].
    exists d'. split; [by right | done].
  - intros [= ->]. exists d. split; [by left | done].
Qed.

Lemma reads_not_ok model ds d e :
  d ∈ ds → read model d = Raise e → ∃ e', reads model ds = Raise e'.
Proof.
  intros Hin Hd. destruct (reads model ds) as [rds|e'] eqn:Hds; [|by eexists].
  apply reads_ok_iff in Hds.
  destruct (proj1 (list_elem_of_lookup ds d) Hin) as [i Hi].
  destruct (Forall2_lookup_l _ _ _ _ _ Hds Hi) as (r & _ & Hr). congruence.
Qed.

Lemma reads_permutation model ds ds' rds :
  ds ≡ₚ ds' → reads model ds = Ok rds →
  ∃ rds', reads model ds' = Ok rds' ∧ rds ≡ₚ rds'.
Proof.
  intros Hp. revert rds. induction Hp as [|d ds ds' Hp IH|d1 d2 ds|ds1 ds2 ds3 _ IH1 _ IH2];
    intros rds Hr.
  - exists rds. done.
  - simpl in *. destruct (read model d) as [r|e]; [|done]. simpl in *.
    destruct (reads model ds) as [rds0|e]; [|done]. simpl in Hr. injection Hr as <-.
    destruct (IH rds0 eq_refl) as (rds' & -> & Hp'). exists (r :: rds'). simpl.
    split; [done | by constructor].
  - simpl in *. destruct (read model d1) as [r1|e]; destruct (read model d2) as [r2|e'];
      simpl in *; try done.
    destruct (reads model ds) as [rds0|e]; [|done]. simpl in *. injection Hr as <-.
    exists (r1 :: r2 :: rds0). split; [done | apply perm_swap].
  - destruct (IH1 rds Hr) as (rds1 & Hr1 & Hp1).
    destruct (IH2 rds1 Hr1) as (rds2 & Hr2 & Hp2).
    exists rds2. split; [done | by etrans].
Qed.

Lemma read_unknown_class model box c p k :
  py_int c = Ok k → names model !! k = None → ∃ e, read model (box, c, p) = Raise e.
Proof.
  intros Hc Hk. destruct box as [[[b1 b2] b3] b4]. unfold read.
  destruct (py_int b1); simpl; [|by eexists].
  destruct (py_int b2); simpl; [|by eexists].
  destruct (py_int b3); simpl; [|by eexists].
  destruct (py_int b4); simpl; [|by eexists].
  rewrite Hc; simpl. unfold getitem. rewrite Hk; simpl. by eexists.
Qed.

Lemma read_key_error model b1 b2 b3 b4 c p x1 y1 x2 y2 k :
  py_int b1 = Ok x1 → py_int b2 = Ok y1 → py_int b3 = Ok x2 → py_int b4 = Ok y2 →
  py_int c = Ok k → names model !! k = None →
  read model (b1, b2, b3, b4, c, p) = Raise (KeyError k).
Proof.
  intros H1 H2 H3 H4 Hc Hk. unfold read, getitem.
  rewrite H1; simpl. rewrite H2; simpl. rewrite H3; simpl. rewrite H4; simpl.
  rewrite Hc; simpl. by rewrite Hk.
Qed.

Lemma reads_first_raise model ds1 d ds2 rds1 e :
  reads model ds1 = Ok rds1 → read model d = Raise e →
  reads model (ds1 ++ d :: ds2) = Raise e.
Proof.
  revert rds1. induction ds1 as [|d1 ds1 IH]; intros rds1 H1 Hd; simpl in *.
  - by rewrite Hd.
  - destruct (read model d1) as [r1|e1]; [|done]. simpl in *.
    destruct (reads model ds1) as [rds|e1]; [|done].
    by rewrite (IH rds eq_refl Hd).
Qed.

(** ** The claims *)

Lemma fresh_not_allocated (h : gmap positive ndarray) : h !! fresh (dom h) = None.
Proof. apply not_elem_of_dom, is_fresh. Qed.

Lemma allocated_not_fresh (h : gmap positive ndarray) l arr :
  h !! l = Some arr → fresh (dom h) ≠ l.
Proof. intros H <-. by rewrite fresh_not_allocated in H. Qed.

Lemma texts_app cs1 cs2 : texts (cs1 ++ cs2) = texts cs1 ++ texts cs2.
Proof. unfold texts. apply omap_app. Qed.

Lemma texts_annotate_calls rds :
  texts (concat (annotate_calls <$> rds)) = (λ r, category r +:+ label_suffix r) <$> rds.
Proof.
  induction rds as [|r rds IH]; [done|].
  rewrite !fmap_cons, concat_cons, texts_app, IH. reflexivity.
Qed.

Lemma texts_detect_calls rds :
  texts (concat (detect_calls <$> rds)) = (λ r, raw_name r +:+ label_suffix r) <$> rds.
Proof.
  induction rds as [|r rds IH]; [done|].
  rewrite !fmap_cons, concat_cons, texts_app, IH. reflexivity.
Qed.

(** C5: with no detection at all, [annotate_and_extract] returns (it
    does not raise) an image equal to the input, pixels and drawing calls
    alike, and an empty set of categories. *)
Theorem no_detection_no_change model img rs (h : gmap positive ndarray) arr :
  h !! img = Some arr → all_detections rs = [] →
  annotated_image (annotate_and_extract model img rs h) = Some arr
  ∧ categories_found (annotate_and_extract model img rs h) = Some ∅.
Proof.
  intros Himg Hnone.
  rewrite (annotate_ok model img rs h arr []) by (by rewrite ?Hnone).
  unfold annotated_image, categories_found; simpl.
  by rewrite lookup_insert_eq, draws_nil.
Qed.

Lemma no_detection_no_change_witness :
  Sample.h0 !! 1%positive = Some Sample.image
  ∧ all_detections [Sample.result_of []] = []
  ∧ annotated_image (annotate_and_extract Sample.model 1 [Sample.result_of []] Sample.h0)
    = Some Sample.image
  ∧ categories_found (annotate_and_extract Sample.model 1 [Sample.result_of []] Sample.h0)
    = Some ∅.
Proof.
  split; [reflexivity|]. split; [reflexivity|].
  apply (no_detection_no_change Sample.model 1 [Sample.result_of []] Sample.h0 Sample.image);
    reflexivity.
Defined.

(** C8: [annotate_and_extract] leaves every array that existed before the
    call as it was, the input buffer among them, whether it returns or
    raises; the image it returns is a newly allocated array with the
    input's pixels, and it is on that array that the calls are drawn. *)
Theorem input_buffer_unchanged model img rs (h : gmap positive ndarray) :
  h ⊆ (annotate_and_extract model img rs h).1
  ∧ (annotate_and_extract model img rs h).1 !! img = h !! img
  ∧ ∀ out found,
      (annotate_and_extract model img rs h).2 = Ok (out, found) →
      (out ∉ dom h) ∧ out ≠ img
      ∧ (∃ arr arr', h !! img = Some arr
          ∧ (annotate_and_extract model img rs h).1 !! out = Some arr'
          ∧ pixels arr' = pixels arr).
Proof.
  destruct (h !! img) as [arr|] eqn:Himg.
  - pose proof (fresh_not_allocated h) as Hfresh.
    pose proof (allocated_not_fresh h img arr Himg) as Hne.
    destruct (reads model (all_detections rs)) as [rds|e] eqn:Hr.
    + rewrite (annotate_ok model img rs h arr rds Himg Hr); simpl.
      split; [by apply insert_subseteq|].
      split; [by rewrite lookup_insert_ne|].
      intros out found [= <- <-]. split; [apply is_fresh|]. split; [done|].
      exists arr, (draws (concat (annotate_calls <$> rds)) arr).
      by rewrite lookup_insert_eq.
    + destruct (annotate_raise model img rs h arr e Himg Hr) as [arr' ->]; simpl.
      split; [by apply insert_subseteq|].
      split; [by rewrite lookup_insert_ne|]. done.
  - rewrite (annotate_dangling model img rs h Himg); simpl. done.
Qed.

Lemma input_buffer_unchanged_witness :
  Sample.h0 ⊆ (annotate_and_extract Sample.model 1
                 [Sample.result_of [Sample.det 10 20 60 70 3 Sample.c_8734]] Sample.h0).1
  ∧ (annotate_and_extract Sample.model 1
       [Sample.result_of [Sample.det 10 20 60 70 3 Sample.c_8734]] Sample.h0).1 !! 1%positive
    = Some Sample.image
  ∧ ((2%positive ∉ dom Sample.h0) ∧ 2%positive ≠ 1%positive).
Proof.
  pose proof (input_buffer_unchanged Sample.model 1
                [Sample.result_of [Sample.det 10 20 60 70 3 Sample.c_8734]] Sample.h0)
    as (Hsub & Hin & Hout).
  split; [exact Hsub|]. split; [exact Hin|].
  destruct (Hout 2%positive {["meningioma"]}) as (Hfresh & Hne & _);
    [vm_compute; reflexivity|].
  split; [exact Hfresh | exact Hne].
Defined.

(** C4 (as the code has it): the annotator neither clamps a box nor skips
    a detection.  Whenever the conversions of all detections succeed, the
    call returns an image with the input's pixels and dimensions on which
    the rectangle and the label of every detection were drawn, in input
    order, at the detection's own coordinates; this includes a detection
    whose box lies fully outside the image. *)
Theorem outside_box_is_drawn model img rs (h : gmap positive ndarray) arr rds :
  h !! img = Some arr → reads model (all_detections rs) = Ok rds →
  ∃ arr',
    annotated_image (annotate_and_extract model img rs h) = Some arr'
    ∧ shape arr' = shape arr
    ∧ pixels arr' = pixels arr
    ∧ drawn arr' = drawn arr ++ concat (annotate_calls <$> rds)
    ∧ (∀ r, r ∈ rds → fully_outside arr r = true →
         Rectangle (corner1 r) (corner2 r) (255, 0, 0) 2 ∈ drawn arr'
         ∧ PutText (category r +:+ label_suffix r)
                   ((corner1 r).1, (corner1 r).2 - 10)
                   FONT_HERSHEY_SIMPLEX (8 # 10) (255, 255, 255) 2 ∈ drawn arr').
Proof.
  intros Himg Hr. exists (draws (concat (annotate_calls <$> rds)) arr).
  rewrite (annotate_ok model img rs h arr rds Himg Hr).
  unfold annotated_image; simpl. rewrite lookup_insert_eq.
  repeat split; try done.
  all: apply elem_of_app; right; apply list_elem_of_In, in_concat;
    exists (annotate_calls r); (split; [apply in_map, list_elem_of_In; assumption|]);
    simpl; auto.
Qed.

Lemma outside_box_is_drawn_witness :
  fully_outside Sample.image Sample.outside_reading = true
  ∧ ∃ arr',
      annotated_image (annotate_and_extract Sample.model 1
                         [Sample.result_of [Sample.outside_det]] Sample.h0) = Some arr'
      ∧ shape arr' = (100, 100)
      ∧ drawn arr' = [ Rectangle (10, 105) (60, 150) (255, 0, 0) 2;
                       PutText "glioma (90.0%)" (10, 95) 0 (8 # 10) (255, 255, 255) 2 ].
Proof.
  split; [reflexivity|].
  destruct (outside_box_is_drawn Sample.model 1 [Sample.result_of [Sample.outside_det]]
              Sample.h0 Sample.image [Sample.outside_reading])
    as (arr' & Hres & Hshape & _ & Hdrawn & _);
    [reflexivity | vm_compute; reflexivity |].
  exists arr'. split; [exact Hres|]. split; [rewrite Hshape; reflexivity|].
  rewrite Hdrawn. vm_compute. reflexivity.
Defined.

(** C4, refuted as stated: a box below a 100 by 100 image, fully outside
    it, is not skipped.  The rectangle call is issued, and so is the
    label call, whose origin (10, 95) lies inside the image; the result
    differs from the one obtained without that detection. *)
Lemma outside_box_not_skipped :
  fully_outside Sample.image Sample.outside_reading = true
  ∧ read Sample.model Sample.outside_det = Ok Sample.outside_reading
  ∧ annotated_image (annotate_and_extract Sample.model 1
                       [Sample.result_of [Sample.outside_det]] Sample.h0)
    = Some (draws [ Rectangle (10, 105) (60, 150) (255, 0, 0) 2;
                    PutText "glioma (90.0%)" (10, 95) 0 (8 # 10) (255, 255, 255) 2 ]
                  Sample.image)
  ∧ annotated_image (annotate_and_extract Sample.model 1
                       [Sample.result_of []] Sample.h0)
    = Some Sample.image
  ∧ annotated_image (annotate_and_extract Sample.model 1
                       [Sample.result_of [Sample.outside_det]] Sample.h0)
    ≠ annotated_image (annotate_and_extract Sample.model 1
                         [Sample.result_of []] Sample.h0).
Proof.
  assert (H1 : annotated_image (annotate_and_extract Sample.model 1
                       [Sample.result_of [Sample.outside_det]] Sample.h0)
    = Some (draws [ Rectangle (10, 105) (60, 150) (255, 0, 0) 2;
                    PutText "glioma (90.0%)" (10, 95) 0 (8 # 10) (255, 255, 255) 2 ]
                  Sample.image)) by (vm_compute; reflexivity).
  assert (H2 : annotated_image (annotate_and_extract Sample.model 1
                       [Sample.result_of []] Sample.h0)
    = Some Sample.image) by (vm_compute; reflexivity).
  split; [reflexivity|]. split; [vm_compute; reflexivity|].
  split; [exact H1|]. split; [exact H2|].
  rewrite H1, H2. intros Heq.
  apply (f_equal (fmap (λ a, length (drawn a)))) in Heq. discriminate Heq.
Qed.

(** ** The number in a label *)

Lemma prints_hundredths_table :
  forallb prints_hundredths (seq 0 (Z.to_nat 10001)) = true.
Proof. vm_compute. reflexivity. Qed.

Lemma repr_hundredths n :
  0 <= n <= 10000 → repr (nearest false n 100) = hundredths n.
Proof.
  intros Hn. pose proof prints_hundredths_table as Ht.
  rewrite forallb_forall in Ht. specialize (Ht (Z.to_nat n)).
  unfold prints_hundredths in Ht. rewrite Z2Nat.id in Ht by lia.
  apply String.eqb_eq, Ht, in_seq. lia.
Qed.

Lemma digits2_pos_bound m : Zpos m < 2 ^ Zpos (digits2_pos m).
Proof.
  induction m as [m IH|m IH|]; simpl digits2_pos.
  - rewrite Pos2Z.inj_succ, Z.pow_succ_r by lia. lia.
  - rewrite Pos2Z.inj_succ, Z.pow_succ_r by lia. lia.
  - reflexivity.
Qed.

(** A binary64 value that compares at most 100 has a negative exponent and
    a mantissa of at most [100 * 2 ^ (- e)]. *)
Lemma at_most_100 m e :
  valid_binary prec emax (S754_finite false m e) = true →
  SFleb (S754_finite false m e) (of_Z 100) = true →
  e < 0 ∧ Zpos m <= 100 * 2 ^ (- e).
Proof.
  intros Hvalid Hle.
  assert (Hdigits : Zpos (digits2_pos m) <= 53).
  { unfold valid_binary, bounded, canonical_mantissa, fexp, emin, prec, emax in Hvalid.
    apply andb_prop in Hvalid as [Hc _]. apply Z.eqb_eq in Hc. lia. }
  assert (Hm : Zpos m < 2 ^ 53).
  { eapply Z.lt_le_trans; [apply digits2_pos_bound|].
    apply Z.pow_le_mono_r; lia. }
  change (of_Z 100) with (S754_finite false 7036874417766400 (-46)) in Hle.
  unfold SFleb, SFcompare in Hle.
  destruct (Z.compare_spec e (-46)) as [->|Hlt|Hgt].
  - split; [lia|]. replace (- -46) with 46 by reflexivity.
    match type of Hle with
    | context [match ?c with _ => _ end] => destruct c eqn:Hc
    end; [| |discriminate Hle].
    + apply Pos.compare_eq in Hc. subst m. reflexivity.
    + apply (proj1 (Pos.compare_lt_iff _ _)) in Hc.
      apply Z.lt_le_incl. exact Hc.
  - split; [lia|].
    assert (2 ^ 47 <= 2 ^ (- e)) by (apply Z.pow_le_mono_r; lia). lia.
  - discriminate.
Qed.

Lemma div_half_even_tie num den :
  0 <= num → 0 < den →
  2 * Z.abs (div_half_even num den * den - num) = den →
  Z.even (div_half_even num den) = true.
Proof.
  intros Hnum Hden. unfold div_half_even.
  pose proof (Z.div_mod num den ltac:(lia)) as Hdm.
  pose proof (Z.mod_pos_bound num den Hden) as Hr.
  set (q := num / den) in *. set (r := num mod den) in *.
  destruct (Z.compare_spec (2 * r) den) as [Heq|Hlt|Hgt].
  - destruct (Z.even q) eqn:Hq; [done|]. intros _.
    rewrite Z.even_add, Hq. reflexivity.
  - intros H. exfalso. nia.
  - intros H. exfalso. nia.
Qed.

Lemma div_half_even_range num den k :
  0 <= num → 0 < den → 0 <= k → num <= k * den →
  0 <= div_half_even num den <= k.
Proof.
  intros Hnum Hden Hk Hle.
  pose proof (div_half_even_nearest num den Hnum Hden) as Hn. nia.
Qed.

(** For a binary64 value [x = m * 2 ^ e] between 0 and 100,
    [repr (round2 x)] is the numeral of the hundredth nearest to [x],
    the even one of two that are equally near. *)
Lemma percent_is_nearest_hundredth x m e :
  x = S754_finite false m e →
  valid_binary prec emax x = true → SFleb x (of_Z 100) = true →
  ∃ n,
    0 <= n <= 10000
    ∧ 2 * Z.abs (n * 2 ^ (- e) - 100 * Zpos m) <= 2 ^ (- e)
    ∧ (2 * Z.abs (n * 2 ^ (- e) - 100 * Zpos m) = 2 ^ (- e) → Z.even n = true)
    ∧ repr (round2 x) = hundredths n.
Proof.
  intros -> Hvalid Hle. destruct (at_most_100 m e Hvalid Hle) as [He Hm].
  assert (Hden : 0 < 2 ^ (- e)) by (apply Z.pow_pos_nonneg; lia).
  exists (div_half_even (Zpos m * 100) (2 ^ (- e))).
  pose proof (div_half_even_range (Zpos m * 100) (2 ^ (- e)) 10000
                ltac:(lia) Hden ltac:(lia) ltac:(lia)) as Hrange.
  split; [exact Hrange|].
  replace (100 * Zpos m) with (Zpos m * 100) by lia.
  split; [apply div_half_even_nearest; lia|].
  split; [apply div_half_even_tie; lia|].
  unfold round2. destruct (Z.leb_spec 0 e); [lia|].
  by apply repr_hundredths.
Qed.

(** C7: every label [annotate_and_extract] draws is the category, a
    space, and in parentheses the confidence times 100 rounded to two
    decimals, as [str] prints that float, followed by a percent sign; the
    labels are drawn in the order of the detections.  Whenever the
    product [x] of the confidence and 100 is a binary64 value
    [m * 2 ^ e] between 0 and 100, the number shown is the numeral of
    [n / 100] for the integer [n] with [n / 100] nearest to [x] (within
    0.005, the even [n] on a tie), printed with one decimal when the
    second would be zero and with two otherwise.  A detection of category
    "meningioma" with confidence 0.8734 is labelled "meningioma (87.34%)";
    confidences 0.12345, 0.00125 and 0.9 show as 12.35, 0.12 and 90.0. *)
Theorem label_text_format model img rs (h : gmap positive ndarray) arr rds :
  h !! img = Some arr → reads model (all_detections rs) = Ok rds →
  (∃ arr',
     annotated_image (annotate_and_extract model img rs h) = Some arr'
     ∧ texts (drawn arr')
       = texts (drawn arr)
         ++ ((λ r, category r +:+ " (" +:+ repr (round2 (mul (score r) (of_Z 100))) +:+ "%)")
               <$> rds))
  ∧ (∀ r, category r = "meningioma" → score r = nearest false 8734 10000 →
       category r +:+ " (" +:+ repr (round2 (mul (score r) (of_Z 100))) +:+ "%)"
       = "meningioma (87.34%)")
  ∧ (∀ r m e,
       mul (score r) (of_Z 100) = S754_finite false m e →
       valid_binary prec emax (mul (score r) (of_Z 100)) = true →
       SFleb (mul (score r) (of_Z 100)) (of_Z 100) = true →
       ∃ n,
         0 <= n <= 10000
         ∧ 2 * Z.abs (n * 2 ^ (- e) - 100 * Zpos m) <= 2 ^ (- e)
         ∧ (2 * Z.abs (n * 2 ^ (- e) - 100 * Zpos m) = 2 ^ (- e) → Z.even n = true)
         ∧ category r +:+ " (" +:+ repr (round2 (mul (score r) (of_Z 100))) +:+ "%)"
           = category r +:+ " (" +:+ hundredths n +:+ "%)")
  ∧ (∀ r, mul (score r) (of_Z 100) = S754_zero false →
       category r +:+ " (" +:+ repr (round2 (mul (score r) (of_Z 100))) +:+ "%)"
       = category r +:+ " (0.0%)")
  ∧ (∀ r, score r = nearest false 12345 100000 →
       category r +:+ " (" +:+ repr (round2 (mul (score r) (of_Z 100))) +:+ "%)"
       = category r +:+ " (12.35%)")
  ∧ (∀ r, score r = nearest false 125 100000 →
       category r +:+ " (" +:+ repr (round2 (mul (score r) (of_Z 100))) +:+ "%)"
       = category r +:+ " (0.12%)")
  ∧ (∀ r, score r = nearest false 9 10 →
       category r +:+ " (" +:+ repr (round2 (mul (score r) (of_Z 100))) +:+ "%)"
       = category r +:+ " (90.0%)").
Proof.
  intros Himg Hr. split; [|split; [|split; [|split; [|split; [|split]]]]].
  - exists (draws (concat (annotate_calls <$> rds)) arr).
    rewrite (annotate_ok model img rs h arr rds Himg Hr).
    unfold annotated_image; simpl. rewrite lookup_insert_eq. split; [done|].
    by rewrite texts_app, texts_annotate_calls.
  - intros r -> ->. vm_compute. reflexivity.
  - intros r m e Hx Hvalid Hle.
    destruct (percent_is_nearest_hundredth _ m e Hx Hvalid Hle)
      as (n & Hrange & Hnear & Htie & Hrepr).
    exists n. split; [exact Hrange|]. split; [exact Hnear|]. split; [exact Htie|].
    by rewrite Hrepr.
  - intros r ->. reflexivity.
  - intros r ->.
    replace (repr (round2 (mul (nearest false 12345 100000) (of_Z 100)))) with "12.35"
      by (vm_compute; reflexivity).
    reflexivity.
  - intros r ->.
    replace (repr (round2 (mul (nearest false 125 100000) (of_Z 100)))) with "0.12"
      by (vm_compute; reflexivity).
    reflexivity.
  - intros r ->.
    replace (repr (round2 (mul (nearest false 9 10) (of_Z 100)))) with "90.0"
      by (vm_compute; reflexivity).
    reflexivity.
Qed.

Lemma label_text_format_witness :
  (∃ arr',
     annotated_image (annotate_and_extract Sample.model 1 SampleLabels.results Sample.h0)
     = Some arr'
     ∧ texts (drawn arr')
       = [ "meningioma (87.34%)"; "glioma (12.35%)"; "glioma (0.12%)"; "glioma (90.0%)" ])
  ∧ mul SampleLabels.c_12345 (of_Z 100) = S754_finite false 6949617174986097 (-49)
  ∧ valid_binary prec emax (mul SampleLabels.c_12345 (of_Z 100)) = true
  ∧ SFleb (mul SampleLabels.c_12345 (of_Z 100)) (of_Z 100) = true
  ∧ ∃ n,
      0 <= n <= 10000
      ∧ 2 * Z.abs (n * 2 ^ 49 - 100 * 6949617174986097) <= 2 ^ 49
      ∧ "glioma (12.35%)" = "glioma" +:+ " (" +:+ hundredths n +:+ "%)".
Proof.
  destruct (label_text_format Sample.model 1 SampleLabels.results Sample.h0
              Sample.image SampleLabels.readings)
    as ((arr' & Hres & Htexts) & _ & Hnear & _);
    [reflexivity | vm_compute; reflexivity |].
  split.
  { exists arr'. split; [exact Hres|]. rewrite Htexts. vm_compute. reflexivity. }
  assert (Hx : mul SampleLabels.c_12345 (of_Z 100)
               = S754_finite false 6949617174986097 (-49)) by (vm_compute; reflexivity).
  assert (Hvalid : valid_binary prec emax (mul SampleLabels.c_12345 (of_Z 100)) = true)
    by (vm_compute; reflexivity).
  assert (Hle : SFleb (mul SampleLabels.c_12345 (of_Z 100)) (of_Z 100) = true)
    by (vm_compute; reflexivity).
  split; [exact Hx|]. split; [exact Hvalid|]. split; [exact Hle|].
  destruct (Hnear {| corner1 := (10, 20); corner2 := (60, 70);
                     raw_name := "Glioma"; score := SampleLabels.c_12345 |}
              6949617174986097%positive (-49) Hx Hvalid Hle)
    as (n & Hrange & Hn & _ & Hlabel).
  exists n. split; [exact Hrange|]. split; [exact Hn|].
  refine (eq_trans _ Hlabel). vm_compute. reflexivity.
Defined.

Lemma lower_idempotent_char c : PyStr.to_lower (PyStr.to_lower c) = PyStr.to_lower c.
Proof.
  unfold PyStr.to_lower. destruct (PyStr.is_upper c) eqn:Hu; [|by rewrite Hu].
  destruct c as [[] [] [] [] [] [] [] []]; vm_compute in Hu; try discriminate; reflexivity.
Qed.

(** C1 (as the code has it): the category of a detection is its class
    name lower-cased, and nothing else is done to it (no whitespace is
    trimmed); the categories found are the set of these.  So detections
    whose names differ only in case, such as "Glioma", "glioma" and
    "GLIOMA", give exactly one category. *)
Theorem categories_are_lowercased_names model img rs (h : gmap positive ndarray) arr rds :
  h !! img = Some arr → reads model (all_detections rs) = Ok rds →
  categories_found (annotate_and_extract model img rs h)
  = Some (list_to_set ((λ r, PyStr.lower (raw_name r)) <$> rds))
  ∧ (∀ c, rds ≠ [] → Forall (λ r, PyStr.lower (raw_name r) = c) rds →
       categories_found (annotate_and_extract model img rs h) = Some {[c]}).
Proof.
  intros Himg Hr. rewrite (annotate_ok model img rs h arr rds Himg Hr).
  unfold categories_found; simpl. split; [done|].
  intros c Hne Hall. f_equal. apply set_eq. intros x.
  rewrite elem_of_list_to_set, elem_of_singleton, list_elem_of_fmap. split.
  - intros (r & -> & Hin). by apply (proj1 (Forall_forall _ _) Hall r).
  - intros ->. destruct rds as [|r rds']; [done|]. exists r.
    split; [symmetry; by apply (Forall_inv Hall) | by left].
Qed.

Lemma categories_are_lowercased_names_witness :
  categories_found (annotate_and_extract Sample.model 1 Sample.three_cases Sample.h0)
  = Some {["glioma"]}.
Proof.
  destruct (categories_are_lowercased_names Sample.model 1 Sample.three_cases Sample.h0 Sample.image
              [ {| corner1 := (10, 20); corner2 := (60, 70);
                   raw_name := "Glioma"; score := Sample.c_90 |};
                {| corner1 := (10, 20); corner2 := (60, 70);
                   raw_name := "glioma"; score := Sample.c_50 |};
                {| corner1 := (10, 20); corner2 := (60, 70);
                   raw_name := "GLIOMA"; score := Sample.c_8734 |} ])
    as [_ Hone]; [reflexivity | vm_compute; reflexivity |].
  apply Hone; [discriminate|]. repeat constructor.
Defined.

(** C1, refuted as stated: with the names "Glioma", "glioma " (trailing
    space) and "GLIOMA" the code finds two categories, "glioma" and
    "glioma ", since it never trims. *)
Lemma trailing_space_is_kept :
  categories_found (annotate_and_extract Sample.model 1 Sample.three_spellings Sample.h0)
  = Some ({["glioma"]} ∪ {["glioma "]})
  ∧ categories_found (annotate_and_extract Sample.model 1 Sample.three_spellings Sample.h0)
    ≠ Some {["glioma"]}.
Proof.
  assert (H : categories_found (annotate_and_extract Sample.model 1 Sample.three_spellings Sample.h0)
              = Some ({["glioma"]} ∪ {["glioma "]})) by (vm_compute; reflexivity).
  split; [exact H|]. rewrite H. intros Heq. apply (inj Some) in Heq.
  assert (Hin : "glioma " ∈ ({["glioma"]} : gset string))
    by (rewrite <- Heq; apply elem_of_union_r, elem_of_singleton; reflexivity).
  apply elem_of_singleton in Hin. discriminate Hin.
Qed.

Lemma lower_idempotent s : PyStr.lower (PyStr.lower s) = PyStr.lower s.
Proof. induction s as [|c s IH]; simpl; [done|]. by rewrite lower_idempotent_char, IH. Qed.

(** C2 (as the code has it): the set of categories found does not depend
    on the order of the detections: two result sequences whose
    detections are permutations of each other give the same set, or both
    raise.  No confidence is attached to a category. *)
Theorem categories_ignore_order model img rs rs' (h : gmap positive ndarray) :
  all_detections rs ≡ₚ all_detections rs' →
  categories_found (annotate_and_extract model img rs h)
  = categories_found (annotate_and_extract model img rs' h).
Proof.
  intros Hp. destruct (h !! img) as [arr|] eqn:Himg.
  - destruct (reads model (all_detections rs)) as [rds|e] eqn:Hr.
    + destruct (reads_permutation model _ _ rds Hp Hr) as (rds' & Hr' & Hp').
      rewrite (annotate_ok model img rs h arr rds Himg Hr).
      rewrite (annotate_ok model img rs' h arr rds' Himg Hr').
      unfold categories_found; simpl. f_equal.
      apply list_to_set_perm_L. by rewrite Hp'.
    + destruct (annotate_raise model img rs h arr e Himg Hr) as [arr1 ->].
      destruct (reads model (all_detections rs')) as [rds'|e'] eqn:Hr'.
      * symmetry in Hp.
        destruct (reads_permutation model _ _ rds' Hp Hr') as (rds & Hr2 & _).
        congruence.
      * destruct (annotate_raise model img rs' h arr e' Himg Hr') as [arr2 ->]. done.
  - by rewrite !annotate_dangling.
Qed.

Lemma categories_ignore_order_witness :
  all_detections Sample.two_found ≡ₚ all_detections Sample.two_found_swapped
  ∧ categories_found (annotate_and_extract Sample.model 1 Sample.two_found Sample.h0)
    = categories_found (annotate_and_extract Sample.model 1 Sample.two_found_swapped Sample.h0).
Proof.
  assert (Hp : all_detections Sample.two_found ≡ₚ all_detections Sample.two_found_swapped)
    by apply perm_swap.
  split; [exact Hp|].
  exact (categories_ignore_order Sample.model 1 Sample.two_found Sample.two_found_swapped Sample.h0 Hp).
Defined.

(** C2, refuted as stated: what aggregation returns carries no confidence.
    A glioma detected at 0.9 and a glioma detected at 0.5 give the same
    returned value, so no reading of that value is the per-category
    maximum confidence. *)
Lemma no_confidence_is_returned :
  (annotate_and_extract Sample.model 1 (Sample.glioma_at Sample.c_90) Sample.h0).2
  = (annotate_and_extract Sample.model 1 (Sample.glioma_at Sample.c_50) Sample.h0).2
  ∧ ¬ ∃ confidence_of : ref * gset string → string → option float,
        ∀ model img rs (h : gmap positive ndarray) out rds c,
          (annotate_and_extract model img rs h).2 = Ok out →
          reads model (all_detections rs) = Ok rds →
          c ∈ out.2 →
          confidence_of out c = best_confidence c rds.
Proof.
  assert (H90 : (annotate_and_extract Sample.model 1 (Sample.glioma_at Sample.c_90) Sample.h0).2
                = Ok (2%positive, {["glioma"]})) by (vm_compute; reflexivity).
  assert (H50 : (annotate_and_extract Sample.model 1 (Sample.glioma_at Sample.c_50) Sample.h0).2
                = Ok (2%positive, {["glioma"]})) by (vm_compute; reflexivity).
  split; [by rewrite H90, H50|].
  intros [confidence_of Hall].
  pose proof (Hall Sample.model 1%positive (Sample.glioma_at Sample.c_90) Sample.h0 _
                [ {| corner1 := (10, 20); corner2 := (60, 70);
                     raw_name := "Glioma"; score := Sample.c_90 |} ]
                "glioma" H90 ltac:(vm_compute; reflexivity)
                ltac:(apply elem_of_singleton; reflexivity)) as E90.
  pose proof (Hall Sample.model 1%positive (Sample.glioma_at Sample.c_50) Sample.h0 _
                [ {| corner1 := (10, 20); corner2 := (60, 70);
                     raw_name := "Glioma"; score := Sample.c_50 |} ]
                "glioma" H50 ltac:(vm_compute; reflexivity)
                ltac:(apply elem_of_singleton; reflexivity)) as E50.
  rewrite E90 in E50. vm_compute in E50. discriminate E50.
Qed.

(** C3 (as the code has it): a detection whose class id is not a key of
    the label table makes [annotate_and_extract] raise; the call returns
    neither an annotated image nor categories, whatever the other
    detections are.  When the detections before it convert and its own
    corners do, the exception is the [KeyError] of the lookup. *)
Theorem unknown_class_id_raises model img rs (h : gmap positive ndarray)
    b1 b2 b3 b4 c p k :
  (b1, b2, b3, b4, c, p) ∈ all_detections rs →
  py_int c = Ok k → names model !! k = None →
  (∃ e, (annotate_and_extract model img rs h).2 = Raise e)
  ∧ categories_found (annotate_and_extract model img rs h) = None
  ∧ annotated_image (annotate_and_extract model img rs h) = None
  ∧ (∀ arr ds1 ds2 rds1 x1 y1 x2 y2,
       h !! img = Some arr →
       all_detections rs = ds1 ++ (b1, b2, b3, b4, c, p) :: ds2 →
       reads model ds1 = Ok rds1 →
       py_int b1 = Ok x1 → py_int b2 = Ok y1 →
       py_int b3 = Ok x2 → py_int b4 = Ok y2 →
       (annotate_and_extract model img rs h).2 = Raise (KeyError k)).
Proof.
  intros Hin Hc Hk.
  assert (∃ e, (annotate_and_extract model img rs h).2 = Raise e) as [e He].
  { destruct (h !! img) as [arr|] eqn:Himg.
    - destruct (read_unknown_class model (b1, b2, b3, b4) c p k Hc Hk) as [e1 He1].
      destruct (reads_not_ok model _ _ e1 Hin He1) as [e Hr].
      destruct (annotate_raise model img rs h arr e Himg Hr) as [arr' ->]. by exists e.
    - rewrite (annotate_dangling model img rs h Himg). by eexists. }
  split; [by exists e|].
  split; [unfold categories_found; by rewrite He|].
  split; [unfold annotated_image; by rewrite He|].
  intros arr ds1 ds2 rds1 x1 y1 x2 y2 Himg Hds Hr1 H1 H2 H3 H4.
  pose proof (read_key_error model b1 b2 b3 b4 c p x1 y1 x2 y2 k H1 H2 H3 H4 Hc Hk) as Hd.
  assert (Hr : reads model (all_detections rs) = Raise (KeyError k))
    by (rewrite Hds; exact (reads_first_raise model ds1 _ ds2 rds1 _ Hr1 Hd)).
  by destruct (annotate_raise model img rs h arr _ Himg Hr) as [arr' ->].
Qed.

Lemma unknown_class_id_raises_witness :
  (annotate_and_extract Sample.model 1 Sample.unknown_then_known Sample.h0).2
  = Raise (KeyError 7)
  ∧ categories_found (annotate_and_extract Sample.model 1 Sample.unknown_then_known Sample.h0)
    = None.
Proof.
  destruct (unknown_class_id_raises Sample.model 1 Sample.unknown_then_known Sample.h0
              (of_Z 10) (of_Z 20) (of_Z 60) (of_Z 70) (of_Z 7) Sample.c_90 7)
    as (_ & Hnone & _ & Hkey);
    [left | vm_compute; reflexivity | vm_compute; reflexivity |].
  split; [|exact Hnone].
  apply (Hkey Sample.image [] [Sample.det 30 40 80 90 3 Sample.c_8734] [] 10 20 60 70);
    vm_compute; reflexivity.
Defined.

(** C3, refuted as stated: a detection with class id 7, unknown to the
    table, followed by a meningioma.  Skipping the first would give the
    result of the second alone, the category "meningioma"; the code
    raises [KeyError] and gives nothing. *)
Lemma unknown_class_id_not_skipped :
  Sample.table !! 7 = None
  ∧ (annotate_and_extract Sample.model 1 Sample.unknown_then_known Sample.h0).2 = Raise (KeyError 7)
  ∧ categories_found (annotate_and_extract Sample.model 1 Sample.known_only Sample.h0)
    = Some {["meningioma"]}
  ∧ categories_found (annotate_and_extract Sample.model 1 Sample.unknown_then_known Sample.h0)
    ≠ categories_found (annotate_and_extract Sample.model 1 Sample.known_only Sample.h0).
Proof.
  assert (H1 : (annotate_and_extract Sample.model 1 Sample.unknown_then_known Sample.h0).2
               = Raise (KeyError 7)) by (vm_compute; reflexivity).
  assert (H2 : categories_found (annotate_and_extract Sample.model 1 Sample.known_only Sample.h0)
               = Some {["meningioma"]}) by (vm_compute; reflexivity).
  split; [vm_compute; reflexivity|]. split; [exact H1|]. split; [exact H2|].
  rewrite H2. unfold categories_found. rewrite H1. discriminate.
Qed.

(** C6 (as the code has it): for a tumor type that is not a key of
    [TUMOR_INFO] the text shown is the title-cased type between two pairs
    of asterisks (bold in Markdown), followed by ": Additional information
    will be added soon."; for "unknown_x" that is
    "**Unknown_X**: Additional information will be added soon.".  For a
    key, such as "glioma", it is the stored text.  The lookup is total. *)
Theorem tumor_information_text :
  (∀ tumor_type, TUMOR_INFO !! tumor_type = None →
     tumor_information tumor_type
     = "**" +:+ PyStr.title tumor_type +:+ "**: Additional information will be added soon.")
  ∧ tumor_information "unknown_x"
    = "**Unknown_X**: Additional information will be added soon."
  ∧ (∀ tumor_type text, TUMOR_INFO !! tumor_type = Some text →
       tumor_information tumor_type = text)
  ∧ tumor_information "glioma" = glioma_info.
Proof.
  split; [|split; [|split]].
  - intros tumor_type Hnone. unfold tumor_information. by rewrite Hnone.
  - vm_compute. reflexivity.
  - intros tumor_type text Hsome. unfold tumor_information. by rewrite Hsome.
  - vm_compute. reflexivity.
Qed.

Lemma tumor_information_text_witness :
  TUMOR_INFO !! "unknown_x" = None
  ∧ tumor_information "unknown_x"
    = "**" +:+ PyStr.title "unknown_x" +:+ "**: Additional information will be added soon."
  ∧ TUMOR_INFO !! "pituitary" = Some pituitary_info
  ∧ tumor_information "pituitary" = pituitary_info.
Proof.
  destruct tumor_information_text as (Habsent & _ & Hpresent & _).
  split; [vm_compute; reflexivity|].
  split; [apply Habsent; vm_compute; reflexivity|].
  split; [vm_compute; reflexivity|].
  apply Hpresent. vm_compute. reflexivity.
Defined.

(** C6, refuted as stated: "unknown_x" is not in the table, and the text
    shown for it is not "Unknown_X: Additional information will be added
    soon.": the title-cased name is wrapped in asterisks. *)
Lemma placeholder_is_not_plain :
  TUMOR_INFO !! "unknown_x" = None
  ∧ tumor_information "unknown_x"
    ≠ "Unknown_X: Additional information will be added soon.".
Proof.
  split; [vm_compute; reflexivity|]. vm_compute. discriminate.
Qed.

(** ** The file name *)

Lemma decimal_fuel_small f n :
  0 <= n < 10 → PyStr.decimal_fuel (S f) n = String (PyStr.digit n) EmptyString.
Proof. intros Hn. simpl. destruct (Z.ltb_spec n 10); [done | lia]. Qed.

Lemma decimal_fuel_step f n :
  10 <= n →
  PyStr.decimal_fuel (S f) n
  = PyStr.decimal_fuel f (n / 10) +:+ String (PyStr.digit (n mod 10)) EmptyString.
Proof. intros Hn. simpl. destruct (Z.ltb_spec n 10); [lia | done]. Qed.

Lemma log2_fuel n k : 2 ^ Z.of_nat k <= n → ∃ f, Z.to_nat (Z.log2 n) = (k + f)%nat.
Proof.
  intros Hn. exists (Z.to_nat (Z.log2 n) - k)%nat.
  assert (Z.of_nat k <= Z.log2 n).
  { rewrite <- (Z.log2_pow2 (Z.of_nat k)) by lia. apply Z.log2_le_mono. lia. }
  lia.
Qed.

Lemma zpad_two_digits n : 0 <= n < 100 → PyStr.zpad 2 n = two_digits n.
Proof.
  intros Hn. unfold PyStr.zpad, PyStr.decimal, two_digits.
  destruct (Z_lt_le_dec n 10) as [Hlt|Hge].
  - rewrite decimal_fuel_small by lia. simpl.
    rewrite Z.div_small, Z.mod_small by lia. reflexivity.
  - destruct (log2_fuel n 1) as [f ->]; [simpl; lia|]. cbn [Nat.add].
    assert (0 <= n / 10 < 10) by (Z.div_mod_to_equations; lia).
    rewrite decimal_fuel_step by lia. rewrite decimal_fuel_small by lia. reflexivity.
Qed.

Lemma decimal_four_digits n : 1000 <= n <= 9999 → PyStr.decimal n = four_digits n.
Proof.
  intros Hn. unfold PyStr.decimal, four_digits, two_digits.
  destruct (log2_fuel n 3) as [f ->]; [simpl; lia|]. cbn [Nat.add].
  assert (100 <= n / 10) by (Z.div_mod_to_equations; lia).
  assert (10 <= n / 10 / 10) by (Z.div_mod_to_equations; lia).
  assert (0 <= n / 10 / 10 / 10 < 10) by (Z.div_mod_to_equations; lia).
  rewrite !decimal_fuel_step by lia. rewrite decimal_fuel_small by lia.
  replace (n / 10 / 10 / 10) with (n / 100 / 10) by (Z.div_mod_to_equations; lia).
  replace (n / 10 / 10 mod 10) with ((n / 100) mod 10) by (Z.div_mod_to_equations; lia).
  replace ((n / 10) mod 10) with (n mod 100 / 10) by (Z.div_mod_to_equations; lia).
  replace (n mod 10) with ((n mod 100) mod 10) by (Z.div_mod_to_equations; lia).
  reflexivity.
Qed.

Lemma append_empty_r s : s +:+ "" = s.
Proof.
  induction s as [|c s IH]; [reflexivity|].
  change (String c (s +:+ "") = String c s). by rewrite IH.
Qed.

Lemma strftime_download t :
  strftime "%Y%m%d_%H%M%S" t
  = PyStr.decimal (year t) +:+ PyStr.zpad 2 (month t) +:+ PyStr.zpad 2 (day t)
    +:+ "_" +:+ PyStr.zpad 2 (hour t) +:+ PyStr.zpad 2 (minute t)
    +:+ PyStr.zpad 2 (second t).
Proof.
  cbv [strftime directive Ascii.eqb Bool.eqb].
  by rewrite append_empty_r.
Qed.

(** C9: the download file name is "tumor_result_", the clock reading as
    four digits of year, two of month, two of day, an underscore, two
    digits each of hour, minute and second, and ".jpg": 32 characters
    that are a function of the clock reading alone. *)
Theorem download_file_name_format now :
  valid_datetime now →
  download_file_name now
  = "tumor_result_"
    +:+ four_digits (year now) +:+ two_digits (month now) +:+ two_digits (day now)
    +:+ "_"
    +:+ two_digits (hour now) +:+ two_digits (minute now) +:+ two_digits (second now)
    +:+ ".jpg"
  ∧ String.length (download_file_name now) = 32%nat.
Proof.
  intros (Hy & Hm & Hd & HH & HM & HS).
  assert (Heq : download_file_name now
    = "tumor_result_"
      +:+ four_digits (year now) +:+ two_digits (month now) +:+ two_digits (day now)
      +:+ "_"
      +:+ two_digits (hour now) +:+ two_digits (minute now) +:+ two_digits (second now)
      +:+ ".jpg").
  { unfold download_file_name. rewrite strftime_download.
    rewrite decimal_four_digits by lia. rewrite !zpad_two_digits by lia.
    unfold four_digits, two_digits. reflexivity. }
  split; [exact Heq|]. rewrite Heq. reflexivity.
Qed.

Lemma download_file_name_format_witness :
  valid_datetime Sample.now
  ∧ download_file_name Sample.now = "tumor_result_20240307_090500.jpg"
  ∧ String.length (download_file_name Sample.now) = 32%nat.
Proof.
  assert (Hv : valid_datetime Sample.now) by (unfold valid_datetime; simpl; lia).
  split; [exact Hv|].
  destruct (download_file_name_format Sample.now Hv) as [Hname Hlen].
  split; [rewrite Hname; vm_compute; reflexivity | exact Hlen].
Defined.

(** ** The two label paths *)

Lemma detect_raise image model threshold (h : gmap positive ndarray) e :
  reads model (all_detections (predict model image threshold)) = Raise e →
  (detect_tumor image model threshold h).2 = Raise e.
Proof.
  intros Hr. unfold detect_tumor.
  unfold mbind at 1, M_bind at 1, np_array.
  unfold mbind at 1, M_bind at 1, np_read. rewrite lookup_insert_eq.
  unfold mbind at 1, M_bind at 1.
  rewrite (np_copy_at _ _ image) by apply lookup_insert_eq.
  unfold mbind at 1, M_bind at 1.
  rewrite (for_each_concat detections).
  match goal with
  | |- context [for_each _ ?body ?s0 ?h1] =>
      destruct (λ Hok Hraise, loop_raise model (fresh (dom (<[fresh (dom h):=image]> h)))
                  body detect_calls
                  (λ (l : list string) r, l ++ [raw_name r +:+ label_suffix r]) Hok Hraise
                  (concat (detections <$> predict model image threshold)) e s0 h1 image)
        as [arr' ->]; [ | | apply lookup_insert_eq | exact Hr | ]
  end.
  - intros s d h2 arr1 r Hann Hd. body_ok_tac d Hann Hd.
  - intros s d h2 arr1 e1 Hann Hd. body_raise_tac d Hann Hd arr1.
  - reflexivity.
Qed.

(** C10: on the same detections the two label paths agree up to the case
    of the class name.  Both raise the same exception when a conversion
    fails; otherwise the labels [detect_tumor] returns, which are the
    ones it draws, and the labels [annotate_and_extract] draws are, one
    for one, the class name followed by the same text: a space and in
    parentheses [round(confidence * 100, 2)] with a percent sign.  Only
    [annotate_and_extract] lower-cases the name. *)
Theorem label_paths_agree image model threshold img
    (h h' : gmap positive ndarray) arr :
  h' !! img = Some arr →
  (∀ e, reads model (all_detections (predict model image threshold)) = Raise e →
     (detect_tumor image model threshold h).2 = Raise e
     ∧ (annotate_and_extract model img (predict model image threshold) h').2 = Raise e)
  ∧ (∀ rds, reads model (all_detections (predict model image threshold)) = Ok rds →
       ∃ annotated labels drawn_by_detect drawn_by_annotate,
         (detect_tumor image model threshold h).2 = Ok (annotated, labels)
         ∧ (detect_tumor image model threshold h).1 !! annotated = Some drawn_by_detect
         ∧ annotated_image (annotate_and_extract model img (predict model image threshold) h')
           = Some drawn_by_annotate
         ∧ labels
           = (λ r, raw_name r
                   +:+ " (" +:+ repr (round2 (mul (score r) (of_Z 100))) +:+ "%)") <$> rds
         ∧ texts (drawn drawn_by_detect) = texts (drawn image) ++ labels
         ∧ texts (drawn drawn_by_annotate)
           = texts (drawn arr)
             ++ ((λ r, PyStr.lower (raw_name r)
                       +:+ " (" +:+ repr (round2 (mul (score r) (of_Z 100))) +:+ "%)")
                   <$> rds)).
Proof.
  intros Himg. split.
  - intros e Hr. split; [by apply detect_raise|].
    by destruct (annotate_raise model img _ h' arr e Himg Hr) as [arr' ->].
  - intros rds Hr.
    pose proof (detect_ok image model threshold h rds Hr) as Hd. simpl in Hd.
    rewrite Hd, (annotate_ok model img _ h' arr rds Himg Hr).
    unfold annotated_image; simpl. rewrite !lookup_insert_eq.
    exists (fresh (dom (<[fresh (dom h) := image]> h))),
      ((λ r, raw_name r +:+ label_suffix r) <$> rds),
      (draws (concat (detect_calls <$> rds)) image),
      (draws (concat (annotate_calls <$> rds)) arr).
    split; [reflexivity|]. split; [apply lookup_insert_eq|].
    split; [reflexivity|]. split; [reflexivity|]. split.
    + unfold draws; simpl. by rewrite texts_app, texts_detect_calls.
    + unfold draws; simpl. by rewrite texts_app, texts_annotate_calls.
Qed.

Lemma label_paths_agree_witness :
  (detect_tumor Sample.image Sample.model_one (of_Z 0) ∅).2
  = Ok (2%positive, ["meningioma (87.34%)"])
  ∧ ∃ drawn_by_annotate,
      annotated_image (annotate_and_extract Sample.model_one 1
                         (predict Sample.model_one Sample.image (of_Z 0)) Sample.h0)
      = Some drawn_by_annotate
      ∧ texts (drawn drawn_by_annotate) = ["meningioma (87.34%)"].
Proof.
  destruct (label_paths_agree Sample.image Sample.model_one (of_Z 0) 1 ∅ Sample.h0
              Sample.image) as [_ Hok]; [reflexivity|].
  destruct (Hok [ {| corner1 := (10, 20); corner2 := (60, 70);
                     raw_name := "meningioma"; score := Sample.c_8734 |} ])
    as (annotated & labels & dd & da & Hd & _ & Ha & Hlabels & _ & Htexts);
    [vm_compute; reflexivity|].
  split.
  - vm_compute. reflexivity.
  - exists da. split; [exact Ha|]. rewrite Htexts. vm_compute. reflexivity.
Defined.

(** * Further properties *)

(** ** [detect_tumor] *)

Lemma detect_raise_heap image model threshold (h : gmap positive ndarray) e :
  reads model (all_detections (predict model image threshold)) = Raise e →
  ∃ arr',
    detect_tumor image model threshold h
    = (<[fresh (dom (<[fresh (dom h) := image]> h)) := arr']>
         (<[fresh (dom h) := image]> h), Raise e).
Proof.
  intros Hr. unfold detect_tumor.
  unfold mbind at 1, M_bind at 1, np_array.
  unfold mbind at 1, M_bind at 1, np_read. rewrite lookup_insert_eq.
  unfold mbind at 1, M_bind at 1.
  rewrite (np_copy_at _ _ image) by apply lookup_insert_eq.
  unfold mbind at 1, M_bind at 1.
  rewrite (for_each_concat detections).
  match goal with
  | |- context [for_each _ ?body ?s0 ?h1] =>
      destruct (λ Hok Hraise, loop_raise model (fresh (dom (<[fresh (dom h):=image]> h)))
                  body detect_calls
                  (λ (l : list string) r, l ++ [raw_name r +:+ label_suffix r]) Hok Hraise
                  (concat (detections <$> predict model image threshold)) e s0 h1 image)
        as [arr' ->]; [ | | apply lookup_insert_eq | exact Hr | ]
  end.
  - intros s d h2 arr1 r Hann Hd. body_ok_tac d Hann Hd.
  - intros s d h2 arr1 e1 Hann Hd. body_raise_tac d Hann Hd arr1.
  - exists arr'. by rewrite insert_insert_eq.
Qed.

(** X1: [detect_tumor] draws on a copy.  Every array that existed before
    the call is unchanged and the array converted from the input image
    stays without drawings, whether the call returns or raises; the
    annotated array it returns is a third, newly allocated one with the
    pixels of the image. *)
Theorem detect_tumor_draws_on_a_copy image model threshold (h : gmap positive ndarray) :
  h ⊆ (detect_tumor image model threshold h).1
  ∧ (detect_tumor image model threshold h).1 !! fresh (dom h) = Some image
  ∧ (∀ annotated labels,
       (detect_tumor image model threshold h).2 = Ok (annotated, labels) →
       (annotated ∉ dom h) ∧ annotated ≠ fresh (dom h)
       ∧ (∃ arr', (detect_tumor image model threshold h).1 !! annotated = Some arr'
                  ∧ pixels arr' = pixels image)).
Proof.
  pose proof (fresh_not_allocated h) as Hf1.
  pose proof (fresh_not_allocated (<[fresh (dom h) := image]> h)) as Hf2.
  assert (Hne : fresh (dom (<[fresh (dom h) := image]> h)) ≠ fresh (dom h)).
  { intros Heq. rewrite Heq, lookup_insert_eq in Hf2. discriminate. }
  assert (Hsub : ∀ arr', h ⊆ <[fresh (dom (<[fresh (dom h) := image]> h)) := arr']>
                               (<[fresh (dom h) := image]> h)).
  { intros arr'. etrans; [apply (insert_subseteq h (fresh (dom h)) image Hf1)|].
    by apply insert_subseteq. }
  destruct (reads model (all_detections (predict model image threshold))) as [rds|e] eqn:Hr.
  - pose proof (detect_ok image model threshold h rds Hr) as Hd. simpl in Hd.
    rewrite Hd; simpl. split; [apply Hsub|].
    split; [by rewrite lookup_insert_ne, lookup_insert_eq|].
    intros annotated labels [= <- <-].
    split; [|split; [done|]].
    + intros Hin. apply elem_of_dom in Hin as [x Hx].
      pose proof (lookup_weaken _ _ _ _ Hx (insert_subseteq h (fresh (dom h)) image Hf1)).
      congruence.
    + eexists. by rewrite lookup_insert_eq.
  - destruct (detect_raise_heap image model threshold h e Hr) as [arr' ->]; simpl.
    split; [apply Hsub|].
    split; [by rewrite lookup_insert_ne, lookup_insert_eq|]. done.
Qed.

Lemma detect_tumor_draws_on_a_copy_witness :
  (detect_tumor Sample.image Sample.model_one (of_Z 0) Sample.h0).1 !! 1%positive
  = Some Sample.image
  ∧ (detect_tumor Sample.image Sample.model_one (of_Z 0) Sample.h0).1 !! 2%positive
    = Some Sample.image
  ∧ (3%positive ∉ dom Sample.h0).
Proof.
  destruct (detect_tumor_draws_on_a_copy Sample.image Sample.model_one (of_Z 0) Sample.h0)
    as (Hsub & Himg & Hout).
  split; [exact (lookup_weaken Sample.h0 _ 1%positive Sample.image eq_refl Hsub)|].
  split; [exact Himg|].
  destruct (Hout 3%positive ["meningioma (87.34%)"]) as (Hfresh & _);
    [vm_compute; reflexivity | exact Hfresh].
Defined.

(** X2: when the model detects nothing, [detect_tumor] returns an empty
    list of labels and an annotated array equal to the input image. *)
Theorem detect_tumor_no_detection image model threshold (h : gmap positive ndarray) :
  all_detections (predict model image threshold) = [] →
  ∃ annotated,
    (detect_tumor image model threshold h).2 = Ok (annotated, [])
    ∧ (detect_tumor image model threshold h).1 !! annotated = Some image.
Proof.
  intros Hnone.
  pose proof (detect_ok image model threshold h []) as Hd.
  rewrite Hnone in Hd. specialize (Hd eq_refl). simpl in Hd.
  rewrite Hd; simpl. eexists. split; [reflexivity|].
  by rewrite lookup_insert_eq, draws_nil.
Qed.

Lemma detect_tumor_no_detection_witness :
  ∃ annotated,
    (detect_tumor Sample.image Sample.model (of_Z 0) Sample.h0).2 = Ok (annotated, [])
    ∧ (detect_tumor Sample.image Sample.model (of_Z 0) Sample.h0).1 !! annotated
      = Some Sample.image.
Proof.
  exact (detect_tumor_no_detection Sample.image Sample.model (of_Z 0) Sample.h0 eq_refl).
Defined.

(** ** [annotate_and_extract] *)

Lemma read_name_in_table model d r :
  read model d = Ok r → ∃ k, names model !! k = Some (raw_name r).
Proof.
  destruct d as [[[[[b1 b2] b3] b4] c] p]. unfold read, getitem.
  destruct (py_int b1); simpl; [|done]. destruct (py_int b2); simpl; [|done].
  destruct (py_int b3); simpl; [|done]. destruct (py_int b4); simpl; [|done].
  destruct (py_int c) as [k|]; simpl; [|done].
  destruct (names model !! k) as [name|] eqn:Hk; simpl; [|done].
  repeat (match goal with |- (c_int ?z ≫= _) = _ → _ => destruct (c_int z) end; simpl; [|done]).
  unfold mret, outcome_ret. intros [= <-]. by exists k.
Qed.

Lemma reads_length model ds rds : reads model ds = Ok rds → length rds = length ds.
Proof. intros H. apply reads_ok_iff in H. symmetry. by eapply Forall2_length. Qed.

Lemma reads_app model ds1 ds2 rds1 rds2 :
  reads model ds1 = Ok rds1 → reads model ds2 = Ok rds2 →
  reads model (ds1 ++ ds2) = Ok (rds1 ++ rds2).
Proof.
  intros H1 H2. apply reads_ok_iff. apply Forall2_app; by apply reads_ok_iff.
Qed.

Lemma all_detections_app rs1 rs2 :
  all_detections (rs1 ++ rs2) = all_detections rs1 ++ all_detections rs2.
Proof. unfold all_detections. by rewrite fmap_app, concat_app. Qed.

Lemma size_list_to_set_le (l : list string) :
  (size (list_to_set (C:=gset string) l) ≤ length l)%nat.
Proof.
  induction l as [|x l IH].
  - by rewrite list_to_set_nil, size_empty.
  - rewrite list_to_set_cons, size_union_alt, size_singleton.
    pose proof (subseteq_size (list_to_set (C:=gset string) l ∖ {[x]}) (list_to_set l)
                  (subseteq_difference_l _ _ _ (reflexivity _))).
    simpl. lia.
Qed.

(** X3: every category [annotate_and_extract] returns is the lower-cased
    form of a name of the label table and is itself unchanged by
    lower-casing; there are at most as many categories as detections. *)
Theorem categories_come_from_the_table model img rs (h : gmap positive ndarray) arr rds :
  h !! img = Some arr → reads model (all_detections rs) = Ok rds →
  ∃ found,
    categories_found (annotate_and_extract model img rs h) = Some found
    ∧ (∀ c, c ∈ found →
         PyStr.lower c = c
         ∧ ∃ k name, names model !! k = Some name ∧ c = PyStr.lower name)
    ∧ (size found ≤ length (all_detections rs))%nat.
Proof.
  intros Himg Hr. exists (list_to_set (category <$> rds)).
  rewrite (annotate_ok model img rs h arr rds Himg Hr).
  split; [reflexivity|]. split.
  - intros c Hc. apply elem_of_list_to_set, list_elem_of_fmap in Hc as (r & -> & Hin).
    split; [apply lower_idempotent|].
    apply reads_ok_iff in Hr.
    destruct (proj1 (list_elem_of_lookup rds r) Hin) as [i Hi].
    destruct (Forall2_lookup_r _ _ _ _ _ Hr Hi) as (d & _ & Hd).
    destruct (read_name_in_table model d r Hd) as [k Hk]. by exists k, (raw_name r).
  - rewrite <- (reads_length model _ rds Hr), <- (length_fmap category rds).
    apply size_list_to_set_le.
Qed.

Lemma categories_come_from_the_table_witness :
  ∃ found,
    categories_found (annotate_and_extract Sample.model 1 Sample.three_cases Sample.h0)
    = Some found
    ∧ (size found ≤ 3)%nat.
Proof.
  destruct (categories_come_from_the_table Sample.model 1 Sample.three_cases Sample.h0
              Sample.image
              [ {| corner1 := (10, 20); corner2 := (60, 70);
                   raw_name := "Glioma"; score := Sample.c_90 |};
                {| corner1 := (10, 20); corner2 := (60, 70);
                   raw_name := "glioma"; score := Sample.c_50 |};
                {| corner1 := (10, 20); corner2 := (60, 70);
                   raw_name := "GLIOMA"; score := Sample.c_8734 |} ])
    as (found & Hfound & _ & Hsize); [reflexivity | vm_compute; reflexivity |].
  exists found. split; [exact Hfound | exact Hsize].
Defined.

Lemma length_annotate_calls rds :
  length (concat (annotate_calls <$> rds)) = (2 * length rds)%nat.
Proof.
  induction rds as [|r rds IH]; [done|].
  rewrite fmap_cons, concat_cons, length_app, IH. simpl. lia.
Qed.

(** X4: drawing is not deduplicated: [annotate_and_extract] adds two
    drawing calls, one of them a label, for each detection, also when
    several detections share a category. *)
Theorem one_box_and_label_per_detection model img rs (h : gmap positive ndarray) arr rds :
  h !! img = Some arr → reads model (all_detections rs) = Ok rds →
  ∃ arr',
    annotated_image (annotate_and_extract model img rs h) = Some arr'
    ∧ length (drawn arr') = (length (drawn arr) + 2 * length (all_detections rs))%nat
    ∧ length (texts (drawn arr'))
      = (length (texts (drawn arr)) + length (all_detections rs))%nat.
Proof.
  intros Himg Hr. exists (draws (concat (annotate_calls <$> rds)) arr).
  rewrite (annotate_ok model img rs h arr rds Himg Hr).
  unfold annotated_image; simpl. rewrite lookup_insert_eq.
  rewrite <- (reads_length model _ rds Hr).
  split; [done|]. split.
  - by rewrite length_app, length_annotate_calls.
  - by rewrite texts_app, texts_annotate_calls, length_app, length_fmap.
Qed.

Lemma one_box_and_label_per_detection_witness :
  ∃ arr',
    annotated_image (annotate_and_extract Sample.model 1 Sample.three_cases Sample.h0)
    = Some arr'
    ∧ length (drawn arr') = 6%nat
    ∧ length (texts (drawn arr')) = 3%nat.
Proof.
  destruct (one_box_and_label_per_detection Sample.model 1 Sample.three_cases Sample.h0
              Sample.image
              [ {| corner1 := (10, 20); corner2 := (60, 70);
                   raw_name := "Glioma"; score := Sample.c_90 |};
                {| corner1 := (10, 20); corner2 := (60, 70);
                   raw_name := "glioma"; score := Sample.c_50 |};
                {| corner1 := (10, 20); corner2 := (60, 70);
                   raw_name := "GLIOMA"; score := Sample.c_8734 |} ])
    as (arr' & Hres & Hdrawn & Htexts); [reflexivity | vm_compute; reflexivity |].
  exists arr'. split; [exact Hres|]. split; [exact Hdrawn | exact Htexts].
Defined.

(** X5: annotating with [rs1 ++ rs2] in one call gives the same image as
    annotating with [rs1] and then annotating the result with [rs2], and
    the categories of the one call are the union of those of the two. *)
Theorem annotation_composes model img rs1 rs2 (h : gmap positive ndarray) arr rds1 rds2 :
  h !! img = Some arr →
  reads model (all_detections rs1) = Ok rds1 →
  reads model (all_detections rs2) = Ok rds2 →
  ∃ h1 out1 found1 h2 out2 found2 final found,
    annotate_and_extract model img rs1 h = (h1, Ok (out1, found1))
    ∧ annotate_and_extract model out1 rs2 h1 = (h2, Ok (out2, found2))
    ∧ annotated_image (annotate_and_extract model img (rs1 ++ rs2) h) = Some final
    ∧ categories_found (annotate_and_extract model img (rs1 ++ rs2) h) = Some found
    ∧ h2 !! out2 = Some final
    ∧ found = found1 ∪ found2.
Proof.
  intros Himg Hr1 Hr2.
  pose proof (reads_app model _ _ rds1 rds2 Hr1 Hr2) as Hr.
  rewrite <- all_detections_app in Hr.
  rewrite (annotate_ok model img rs1 h arr rds1 Himg Hr1).
  rewrite (annotate_ok model img (rs1 ++ rs2) h arr _ Himg Hr).
  eexists _, _, _.
  erewrite (annotate_ok model (fresh (dom h)) rs2 _ _ rds2); [|apply lookup_insert_eq|exact Hr2].
  eexists _, _, _, _, _. split; [reflexivity|]. split; [reflexivity|].
  unfold annotated_image, categories_found; simpl. rewrite !lookup_insert_eq.
  split; [reflexivity|]. split; [reflexivity|]. split.
  - by rewrite draws_draws, fmap_app, concat_app.
  - by rewrite fmap_app, list_to_set_app_L.
Qed.

Lemma annotation_composes_witness :
  ∃ final found,
    annotated_image (annotate_and_extract Sample.model 1
                       (Sample.glioma_at Sample.c_90 ++ Sample.known_only) Sample.h0)
    = Some final
    ∧ categories_found (annotate_and_extract Sample.model 1
                          (Sample.glioma_at Sample.c_90 ++ Sample.known_only) Sample.h0)
      = Some found
    ∧ found = {["glioma"]} ∪ {["meningioma"]}
    ∧ length (drawn final) = 4%nat.
Proof.
  destruct (annotation_composes Sample.model 1 (Sample.glioma_at Sample.c_90)
              Sample.known_only Sample.h0 Sample.image
              [ {| corner1 := (10, 20); corner2 := (60, 70);
                   raw_name := "Glioma"; score := Sample.c_90 |} ]
              [ {| corner1 := (30, 40); corner2 := (80, 90);
                   raw_name := "meningioma"; score := Sample.c_8734 |} ])
    as (h1 & out1 & found1 & h2 & out2 & found2 & final & found
        & H1 & H2 & Hfinal & Hfound & Hsame & Hunion);
    [reflexivity | vm_compute; reflexivity | vm_compute; reflexivity |].
  exists final, found. split; [exact Hfinal|]. split; [exact Hfound|].
  vm_compute in Hfinal. injection Hfinal as <-.
  vm_compute in Hfound. injection Hfound as <-.
  split; [vm_compute; reflexivity | reflexivity].
Defined.

(** X6: [annotate_and_extract] raises the exception of the first detection
    whose conversions fail, whatever comes after it, and leaves the input
    array as it was. *)
Theorem first_failure_decides model img rs (h : gmap positive ndarray) arr
    ds1 d ds2 rds1 e :
  h !! img = Some arr →
  all_detections rs = ds1 ++ d :: ds2 →
  reads model ds1 = Ok rds1 → read model d = Raise e →
  (annotate_and_extract model img rs h).2 = Raise e
  ∧ (annotate_and_extract model img rs h).1 !! img = Some arr.
Proof.
  intros Himg Hds Hr1 Hd.
  assert (Hr : reads model (all_detections rs) = Raise e)
    by (rewrite Hds; exact (reads_first_raise model ds1 d ds2 rds1 e Hr1 Hd)).
  destruct (annotate_raise model img rs h arr e Himg Hr) as [arr' ->]; simpl.
  split; [done|]. rewrite lookup_insert_ne; [done|]. by eapply allocated_not_fresh.
Qed.

Lemma first_failure_decides_witness :
  (annotate_and_extract Sample.model 1
     [Sample.result_of [ Sample.det 10 20 60 70 0 Sample.c_90;
                         (S754_nan, of_Z 20, of_Z 60, of_Z 70, of_Z 3, Sample.c_50);
                         Sample.det 30 40 80 90 7 Sample.c_8734 ]] Sample.h0).2
  = Raise ValueError.
Proof.
  apply (first_failure_decides Sample.model 1 _ Sample.h0 Sample.image
           [Sample.det 10 20 60 70 0 Sample.c_90]
           (S754_nan, of_Z 20, of_Z 60, of_Z 70, of_Z 3, Sample.c_50)
           [Sample.det 30 40 80 90 7 Sample.c_8734]
           [ {| corner1 := (10, 20); corner2 := (60, 70);
                raw_name := "Glioma"; score := Sample.c_90 |} ]);
    vm_compute; reflexivity.
Defined.

(** ** The file name *)

Lemma digit_inj a b : 0 <= a < 10 → 0 <= b < 10 → PyStr.digit a = PyStr.digit b → a = b.
Proof.
  intros Ha Hb H. unfold PyStr.digit in H.
  apply (f_equal nat_of_ascii) in H.
  rewrite !nat_ascii_embedding in H by lia. lia.
Qed.

Lemma two_digits_inj a b :
  0 <= a < 100 → 0 <= b < 100 → two_digits a = two_digits b → a = b.
Proof.
  intros Ha Hb H. unfold two_digits in H. injection H as H1 H0.
  apply digit_inj in H1; [|Z.div_mod_to_equations; lia..].
  apply digit_inj in H0; [|Z.div_mod_to_equations; lia..].
  Z.div_mod_to_equations. lia.
Qed.

Lemma file_name_digits t :
  valid_datetime t →
  download_file_name t
  = "tumor_result_"
    +:+ four_digits (year t) +:+ two_digits (month t) +:+ two_digits (day t)
    +:+ "_"
    +:+ two_digits (hour t) +:+ two_digits (minute t) +:+ two_digits (second t)
    +:+ ".jpg".
Proof.
  intros (Hy & Hm & Hd & HH & HM & HS).
  unfold download_file_name. rewrite strftime_download.
  rewrite decimal_four_digits by lia. rewrite !zpad_two_digits by lia.
  unfold four_digits, two_digits. reflexivity.
Qed.

(** X7: two clock readings that differ in any field down to the second
    give different download file names (years 1000 to 9999). *)
Theorem download_file_name_injective a b :
  valid_datetime a → valid_datetime b →
  download_file_name a = download_file_name b → a = b.
Proof.
  intros Ha Hb H. rewrite (file_name_digits a Ha), (file_name_digits b Hb) in H.
  destruct Ha as (Hy & Hm & Hd & HH & HM & HS).
  destruct Hb as (Hy' & Hm' & Hd' & HH' & HM' & HS').
  cbv [String.append four_digits two_digits] in H.
  injection H as Y3 Y2 Y1 Y0 M1 M0 D1 D0 h1 h0 m1 m0 s1 s0.
  assert (E2 : ∀ x y, 0 <= x < 100 → 0 <= y < 100 →
                 PyStr.digit (x / 10) = PyStr.digit (y / 10) →
                 PyStr.digit (x mod 10) = PyStr.digit (y mod 10) → x = y).
  { intros x y Hx Hy0 E1 E0. apply two_digits_inj; [done..|].
    unfold two_digits. by rewrite E1, E0. }
  assert (Ey1 : year a / 100 = year b / 100)
    by (apply E2; [Z.div_mod_to_equations; lia..|done|done]).
  assert (Ey0 : year a mod 100 = year b mod 100)
    by (apply E2; [Z.div_mod_to_equations; lia..|done|done]).
  assert (Ey : year a = year b) by (Z.div_mod_to_equations; lia).
  pose proof (E2 (month a) (month b) ltac:(lia) ltac:(lia) M1 M0).
  pose proof (E2 (day a) (day b) ltac:(lia) ltac:(lia) D1 D0).
  pose proof (E2 (hour a) (hour b) ltac:(lia) ltac:(lia) h1 h0).
  pose proof (E2 (minute a) (minute b) ltac:(lia) ltac:(lia) m1 m0).
  pose proof (E2 (second a) (second b) ltac:(lia) ltac:(lia) s1 s0).
  destruct a, b; simpl in *; congruence.
Qed.

Lemma download_file_name_injective_witness :
  valid_datetime Sample.now
  ∧ download_file_name Sample.now
    ≠ download_file_name
        {| year := 2024; month := 3; day := 7; hour := 9; minute := 5; second := 1 |}.
Proof.
  assert (Ha : valid_datetime Sample.now) by (unfold valid_datetime; simpl; lia).
  split; [exact Ha|]. intros H.
  apply (download_file_name_injective Sample.now _ Ha) in H;
    [discriminate H | unfold valid_datetime; simpl; lia].
Defined.

(** ** The tumor information *)






(** X9: every key of [TUMOR_INFO] is lower-case, so its article is shown
    for each class name that equals the key up to letter case once
    [annotate_and_extract] has lower-cased it. *)
Theorem every_article_is_reachable key text :
  TUMOR_INFO !! key = Some text →
  PyStr.lower key = key
  ∧ (∀ name, PyStr.lower name = PyStr.lower key →
       tumor_information (PyStr.lower name) = text).
Proof.
  intros Hkey.
  assert (Hlow : PyStr.lower key = key).
  { apply elem_of_list_to_map_2 in Hkey.
    repeat (apply elem_of_cons in Hkey as [[= -> _]|Hkey]; [reflexivity|]).
    by apply elem_of_nil in Hkey. }
  split; [exact Hlow|].
  intros name ->. rewrite Hlow. unfold tumor_information. by rewrite Hkey.
Qed.

Lemma every_article_is_reachable_witness :
  tumor_information (PyStr.lower "Pituitary") = pituitary_info.
Proof.
  destruct (every_article_is_reachable "pituitary" pituitary_info
              ltac:(vm_compute; reflexivity)) as [_ Hall].
  apply Hall. vm_compute. reflexivity.
Defined.

(** ** The upload section *)


Lemma for_st {A : Type} (f : A → st_call) (l : list A) w :
  for_ l (λ x, st (f x)) w
  = ({| arrays := arrays w; shown := shown w ++ (f <$> l); clock_reads := clock_reads w |},
     Done ()).
Proof.
  revert w. induction l as [|x l IH]; intros w.
  - simpl. rewrite app_nil_r. by destruct w.
  - simpl. unfold mbind, Script_bind, st at 1. rewrite IH. simpl.
    by rewrite <- app_assoc.
Qed.

Section ForLoop.
Context {A : Type} (body : A → Script unit) (step : world → A → world).
Context (Pre : world → A → Prop).

Hypothesis body_done : ∀ w x, Pre w x → body x w = (step w x, Done ()).

Lemma for_done l : ∀ w,
  (∀ l1 x l2, l = l1 ++ x :: l2 → Pre (foldl step w l1) x) →
  for_ l body w = (foldl step w l, Done ()).
Proof.
  induction l as [|x l IH]; intros w Hpre; [reflexivity|].
  simpl. unfold mbind, Script_bind.
  rewrite (body_done w x (Hpre [] x l eq_refl)).
  apply IH. intros l1 y l2 ->. apply (Hpre (x :: l1) y l2 eq_refl).
Qed.

End ForLoop.

Lemma download_names_app l1 l2 :
  download_names (l1 ++ l2) = download_names l1 ++ download_names l2.
Proof. apply omap_app. Qed.



Lemma download_names_info_block env found : download_names (info_block env found) = [].
Proof.
  unfold info_block. destruct (listing env found) as [|x l]; [done|].
  generalize (x :: l). intros k. simpl. induction k as [|y k IH]; [done | exact IH].
Qed.


Lemma no_clash env label data file_name mime l :
  clash_needs_same_name env → file_name ∉ download_names l →
  existsb (same_element env (StDownloadButton label data file_name mime)) l = false.
Proof.
  intros Hlaw Hfresh. destruct (existsb _ l) eqn:Hex; [|done]. exfalso.
  apply existsb_exists in Hex as (c & Hin & Hc).
  destruct (Hlaw _ _ Hc) as (l0 & d0 & f0 & m0 & l1 & d1 & m1 & [= -> -> -> ->] & ->).
  apply Hfresh. apply list_elem_of_In in Hin.
  unfold download_names. apply list_elem_of_omap. eexists. split; [exact Hin|]. done.
Qed.

Lemma info_block_shown env found w :
  match listing env found with
  | [] => mret ()
  | _ :: _ =>
      _ ← st (StMarkdown "### Tumor Information");
      for_ (listing env found) (λ tumor_type, st (StMarkdown (tumor_information tumor_type)))
  end w
  = ({| arrays := arrays w; shown := shown w ++ info_block env found;
        clock_reads := clock_reads w |}, Done ()).
Proof.
  unfold info_block. destruct (listing env found) as [|x l] eqn:Hl.
  - unfold mret, Script_ret. rewrite app_nil_r. by destruct w.
  - unfold mbind, Script_bind, st at 1. rewrite for_st. simpl.
    by rewrite <- app_assoc.
Qed.

Lemma readings_of_ok model threshold image rds :
  reads model (all_detections (predict model image threshold)) = Ok rds →
  readings_of model threshold image = rds.
Proof. intros H. unfold readings_of. by rewrite H. Qed.

Lemma upload_loop env model threshold :
  clash_needs_same_name env →
  ∃ body : ndarray → Script unit,
    (∀ files w, files ≠ [] →
       upload_section env model threshold files w
       = for_ files body (with_results_header w))
    ∧ (∀ w image, runs_clean env model threshold w image →
         body image w = (after_file env model threshold w image, Done ()))
    ∧ (∀ w image e,
         reads model (all_detections (predict model image threshold)) = Raise e →
         ∃ arrays', body image w
                    = ({| arrays := arrays'; shown := shown w;
                          clock_reads := clock_reads w |}, Failed (PyExn e))).
Proof.
  intros Hlaw. eexists. split; [|split].
  - intros files w Hne. destruct files as [|f files]; [done|].
    unfold upload_section. unfold mbind at 1, Script_bind at 1, st at 1.
    reflexivity.
  - intros w image [(rds & data & Hr & Henc) Hname].
    unfold mbind at 1, Script_bind at 1, in_heap at 1, np_array. cbn [arrays shown clock_reads].
    unfold mbind at 1, Script_bind at 1, in_heap at 1, np_read. cbn [arrays shown clock_reads].
    rewrite lookup_insert_eq.
    unfold mbind at 1, Script_bind at 1, in_heap at 1. cbn [arrays shown clock_reads].
    rewrite (annotate_ok model _ _ _ image rds (lookup_insert_eq _ _ _) Hr).
    unfold mbind at 1, Script_bind at 1, st at 1. cbn [arrays shown clock_reads].
    unfold mbind at 1, Script_bind at 1, st at 1. cbn [arrays shown clock_reads].
    unfold mbind at 1, Script_bind at 1, in_heap at 1, np_read. cbn [arrays shown clock_reads].
    rewrite lookup_insert_eq.
    unfold mbind at 1, Script_bind at 1, st at 1. cbn [arrays shown clock_reads].
    unfold mbind at 1, Script_bind at 1. rewrite info_block_shown. cbn [arrays shown clock_reads].
    unfold mbind at 1, Script_bind at 1, cv2_imencode.
    unfold mbind at 1, Script_bind at 1, in_heap at 1, np_read. cbn [arrays shown clock_reads].
    rewrite lookup_insert_eq, Henc. unfold mret at 1, Script_ret at 1.
    unfold mbind at 1, Script_bind at 1, datetime_now. cbn [arrays shown clock_reads].
    unfold st_download_button. cbn [arrays shown clock_reads].
    rewrite (no_clash env _ _ _ _ _ Hlaw).
    + unfold st, after_file, annotated_of. cbn [arrays shown clock_reads].
      rewrite (readings_of_ok model threshold image rds Hr), Henc. simpl default.
      unfold file_elements. by rewrite <- !app_assoc.
    + rewrite !download_names_app, download_names_info_block. simpl.
      by rewrite !app_nil_r.
  - intros w image e Hr.
    unfold mbind at 1, Script_bind at 1, in_heap at 1, np_array. cbn [arrays shown clock_reads].
    unfold mbind at 1, Script_bind at 1, in_heap at 1, np_read. cbn [arrays shown clock_reads].
    rewrite lookup_insert_eq.
    unfold mbind at 1, Script_bind at 1, in_heap at 1. cbn [arrays shown clock_reads].
    match goal with
    | |- context [annotate_and_extract ?m ?i ?rs ?h] =>
        destruct (annotate_raise m i rs h image e (lookup_insert_eq _ _ _) Hr)
          as [arr' ->]
    end.
    eexists. reflexivity.
Qed.

Lemma upload_section_done env model threshold files w :
  clash_needs_same_name env → files ≠ [] →
  (∀ l1 x l2, files = l1 ++ x :: l2 →
     runs_clean env model threshold
       (foldl (after_file env model threshold) (with_results_header w) l1) x) →
  upload_section env model threshold files w
  = (foldl (after_file env model threshold) (with_results_header w) files, Done ()).
Proof.
  intros Hlaw Hne Hpre.
  destruct (upload_loop env model threshold Hlaw) as (body & Hunfold & Hdone & _).
  rewrite (Hunfold files w Hne).
  by apply (for_done body (after_file env model threshold)
              (runs_clean env model threshold) Hdone).
Qed.

Lemma clock_reads_after env model threshold files w :
  clock_reads (foldl (after_file env model threshold) w files)
  = (clock_reads w + length files)%nat.
Proof.
  revert w. induction files as [|f files IH]; intros w; simpl; [lia|].
  rewrite IH. simpl. lia.
Qed.

Lemma names_from_S env k n :
  names_from env k (S n) = download_file_name (clock env k) :: names_from env (S k) n.
Proof.
  unfold names_from. simpl. rewrite Nat.add_0_r. f_equal.
  rewrite <- fmap_S_seq, <- list_fmap_compose. apply list_fmap_ext.
  intros _ i _. simpl. f_equal. f_equal. lia.
Qed.

Lemma download_names_after env model threshold files w :
  download_names (shown (foldl (after_file env model threshold) w files))
  = download_names (shown w) ++ names_from env (clock_reads w) (length files).
Proof.
  revert w. induction files as [|f files IH]; intros w.
  - simpl. by rewrite app_nil_r.
  - simpl foldl. rewrite IH. cbn [shown clock_reads after_file length].
    unfold file_elements. rewrite !download_names_app, download_names_info_block.
    rewrite names_from_S. simpl. by rewrite <- app_assoc.
Qed.


Lemma next_name_is_fresh env (earlier : list string) k n1 n2 :
  NoDup (earlier ++ names_from env k (n1 + S n2)) →
  download_file_name (clock env (k + n1)) ∉ earlier ++ names_from env k n1.
Proof.
  revert earlier k. induction n1 as [|n1 IH]; intros earlier k Hnd.
  - simpl in *. rewrite names_from_S in Hnd. rewrite app_nil_r, Nat.add_0_r.
    apply NoDup_app in Hnd as (_ & Hdisj & Hnd).
    intros Hin. apply (Hdisj _ Hin). by left.
  - change (S n1 + S n2)%nat with (S (n1 + S n2)) in Hnd.
    rewrite names_from_S in Hnd. rewrite names_from_S.
    replace (k + S n1)%nat with (S k + n1)%nat by lia.
    specialize (IH (earlier ++ [download_file_name (clock env k)]) (S k)).
    rewrite <- !app_assoc in IH. simpl in IH. by apply IH.
Qed.

Lemma runs_clean_batch env model threshold files w :
  Forall (λ image, ∃ rds data, processes env model threshold image rds data) files →
  NoDup (download_names (shown w) ++ names_from env (clock_reads w) (length files)) →
  ∀ l1 x l2, files = l1 ++ x :: l2 →
    runs_clean env model threshold (foldl (after_file env model threshold) w l1) x.
Proof.
  intros Hall Hnd l1 x l2 ->. split.
  - apply Forall_app in Hall as [_ Hall]. by apply Forall_cons in Hall as [Hx _].
  - rewrite clock_reads_after, download_names_after.
    rewrite length_app in Hnd. simpl in Hnd. by eapply next_name_is_fresh.
Qed.

Lemma upload_section_clean env model threshold files w :
  clash_needs_same_name env →
  Forall (λ image, ∃ rds data, processes env model threshold image rds data) files →
  NoDup (download_names (shown w) ++ names_from env (clock_reads w) (length files)) →
  files ≠ [] →
  upload_section env model threshold files w
  = (foldl (after_file env model threshold) (with_results_header w) files, Done ()).
Proof.
  intros Hlaw Hall Hnd Hne. apply upload_section_done; [done..|].
  apply runs_clean_batch; [done|].
  unfold with_results_header; cbn [shown clock_reads].
  rewrite download_names_app. simpl. by rewrite app_nil_r.
Qed.

Lemma sample_env_law : clash_needs_same_name SamplePage.env.
Proof.
  intros b c H. destruct b, c; simpl in H; try discriminate.
  apply String.eqb_eq in H as ->. by eexists _, _, _, _, _, _, _.
Qed.

Lemma sample_small_processes :
  processes SamplePage.env SamplePage.model (of_Z 0) SamplePage.small
    [ {| corner1 := (10, 20); corner2 := (60, 70);
         raw_name := "Glioma"; score := Sample.c_90 |};
      {| corner1 := (30, 40); corner2 := (80, 90);
         raw_name := "meningioma"; score := Sample.c_8734 |} ] [4].
Proof. split; vm_compute; reflexivity. Qed.

Lemma sample_wide_processes :
  processes SamplePage.env SamplePage.model (of_Z 0) SamplePage.wide [] [0].
Proof. split; vm_compute; reflexivity. Qed.

(** X10: when no upload raises and the download names do not repeat, the
    upload section ends normally, reads the clock once per upload and
    shows one download button per upload, in upload order, named after
    the successive clock readings. *)
Theorem one_download_button_per_upload env model threshold files w :
  clash_needs_same_name env →
  Forall (λ image, ∃ rds data, processes env model threshold image rds data) files →
  NoDup (download_names (shown w) ++ names_from env (clock_reads w) (length files)) →
  (upload_section env model threshold files w).2 = Done ()
  ∧ download_names (shown (upload_section env model threshold files w).1)
    = download_names (shown w) ++ names_from env (clock_reads w) (length files)
  ∧ clock_reads (upload_section env model threshold files w).1
    = (clock_reads w + length files)%nat.
Proof.
  intros Hlaw Hall Hnd. destruct (decide (files = [])) as [->|Hne].
  - simpl. rewrite download_names_app. simpl. split; [done|]. split; [done | lia].
  - rewrite (upload_section_clean env model threshold files w Hlaw Hall Hnd Hne).
    cbn [fst snd]. split; [done|].
    rewrite download_names_after, clock_reads_after.
    unfold with_results_header; cbn [shown clock_reads].
    rewrite download_names_app. simpl. by rewrite app_nil_r.
Qed.

Lemma one_download_button_per_upload_witness :
  download_names
    (shown (upload_section SamplePage.env SamplePage.model (of_Z 0)
              [SamplePage.small; SamplePage.wide] SamplePage.w0).1)
  = [ "tumor_result_20240307_090500.jpg"; "tumor_result_20240307_090501.jpg" ].
Proof.
  destruct (one_download_button_per_upload SamplePage.env SamplePage.model (of_Z 0)
              [SamplePage.small; SamplePage.wide] SamplePage.w0 sample_env_law)
    as (_ & Hnames & _).
  - repeat constructor; eexists _, _;
      [exact sample_small_processes | exact sample_wide_processes].
  - apply (bool_decide_unpack _). vm_compute. reflexivity.
  - rewrite Hnames. vm_compute. reflexivity.
Defined.







Lemma grows_refl w : grows w w.
Proof. split; [done|]. split; [done | lia]. Qed.

Lemma grows_trans w1 w2 w3 : grows w1 w2 → grows w2 w3 → grows w1 w3.
Proof.
  intros (Ha & Hs & Hc) (Ha' & Hs' & Hc').
  split; [by etrans|]. split; [by etrans | lia].
Qed.

Lemma bind_grows {A B : Type} (m : Script A) (k : A → Script B) :
  (∀ w, grows w (m w).1) → (∀ a w, grows w (k a w).1) →
  ∀ w, grows w ((m ≫= k) w).1.
Proof.
  intros Hm Hk w. unfold mbind, Script_bind. specialize (Hm w).
  destruct (m w) as [w1 [a|e]]; simpl in *; [|done].
  eapply grows_trans; [exact Hm | apply Hk].
Qed.

Lemma for_grows {A : Type} (body : A → Script unit) (l : list A) :
  (∀ x w, grows w (body x w).1) → ∀ w, grows w (for_ l body w).1.
Proof.
  intros Hbody. induction l as [|x l IH]; intros w; simpl.
  - apply grows_refl.
  - apply bind_grows; [apply Hbody | intros _; apply IH].
Qed.

Lemma in_heap_grows {A : Type} (m : M A) :
  (∀ h, h ⊆ (m h).1) → ∀ w, grows w (in_heap m w).1.
Proof.
  intros Hm w. unfold in_heap. specialize (Hm (arrays w)).
  destruct (m (arrays w)) as [h o]. unfold grows; simpl in *.
  split; [done|]. split; [done | lia].
Qed.

Lemma st_grows c w : grows w (st c w).1.
Proof.
  unfold st, grows; simpl. split; [done|]. split; [by apply prefix_app_r | lia].
Qed.

Lemma np_array_frame image (h : gmap positive ndarray) : h ⊆ (np_array image h).1.
Proof. unfold np_array; simpl. apply insert_subseteq, fresh_not_allocated. Qed.

Lemma np_read_frame a (h : gmap positive ndarray) : h ⊆ (np_read a h).1.
Proof. unfold np_read. by destruct (h !! a). Qed.

Lemma annotate_frame model img rs (h : gmap positive ndarray) :
  h ⊆ (annotate_and_extract model img rs h).1.
Proof.
  destruct (h !! img) as [arr|] eqn:Himg.
  - destruct (reads model (all_detections rs)) as [rds|e] eqn:Hr.
    + rewrite (annotate_ok model img rs h arr rds Himg Hr); simpl.
      apply insert_subseteq, fresh_not_allocated.
    + destruct (annotate_raise model img rs h arr e Himg Hr) as [arr' ->]; simpl.
      apply insert_subseteq, fresh_not_allocated.
  - by rewrite (annotate_dangling model img rs h Himg).
Qed.

Lemma upload_section_grows env model threshold files w :
  grows w (upload_section env model threshold files w).1.
Proof.
  unfold upload_section. destruct files as [|f files]; [apply st_grows|].
  generalize (f :: files). clear f files. intros files. revert w.
  apply bind_grows; [apply st_grows|]. intros _.
  apply for_grows. intros image.
  apply bind_grows; [apply in_heap_grows, np_array_frame|]. intros img_np.
  apply bind_grows; [apply in_heap_grows, np_read_frame|]. intros arr.
  apply bind_grows; [apply in_heap_grows, annotate_frame|]. intros [annotated_img found].
  apply bind_grows; [apply st_grows|]. intros _.
  apply bind_grows; [apply st_grows|]. intros _.
  apply bind_grows; [apply in_heap_grows, np_read_frame|]. intros annotated.
  apply bind_grows; [apply st_grows|]. intros _.
  apply bind_grows.
  { destruct (listing env found) as [|x l]; [apply grows_refl|].
    apply bind_grows; [apply st_grows|]. intros _.
    apply for_grows. intros t. apply st_grows. }
  intros _.
  apply bind_grows.
  { unfold cv2_imencode. apply bind_grows; [apply in_heap_grows, np_read_frame|].
    intros a w. destruct (imencode_jpg env a); apply grows_refl. }
  intros data.
  apply bind_grows.
  { intros w. unfold datetime_now, grows; simpl. split; [done|]. split; [done | lia]. }
  intros t w. unfold st_download_button.
  destruct (existsb _ _); [apply grows_refl | apply st_grows].
Qed.

(** X14: the upload section only adds: it leaves every array that
    existed before as it was, keeps the elements already on the page in
    front of those it adds, and never turns the clock count back,
    whether it ends normally or with an exception. *)
Theorem upload_section_only_adds env model threshold files w :
  arrays w ⊆ arrays (upload_section env model threshold files w).1
  ∧ shown w `prefix_of` shown (upload_section env model threshold files w).1
  ∧ (clock_reads w ≤ clock_reads (upload_section env model threshold files w).1)%nat.
Proof. apply upload_section_grows. Qed.


